(** * viz-my-xls: ingestion and aggregation of freedom-index records

    A shallow embedding of the data pipeline of the dashboard:
    - [FileUpload]: the row transformation of [processExcelFile]
      (FileUpload component), from spreadsheet rows to records;
    - [StatsCards]: the headline statistics and the trend;
    - [DataVisualization]: status distribution, region summary, yearly series;
    - [DataTable]: the sorted view of the table;
    - [DashboardView]: the state of the page, its filters and controls
      (Dashboard component);
    - [DataTableView]: the pages and the sort controls of the table.

    Conventions.  JavaScript strings are byte strings holding UTF-8 text (a
    surrogate that stands alone takes three bytes, like a character of the
    basic plane); they are compared by their UTF-16 code units.  Numeric
    cells and the numbers that the pipeline produces with [parseInt] are
    integers ([Z]); they are the numbers of the program up to a magnitude of
    2^53, and the statements that depend on it carry that bound.  Quotients,
    products and sums of fractions are doubles: the exact result rounded to
    the nearest number of 53 significant bits, held as a rational ([Q]) in
    [number], which keeps the non-finite results apart from the finite ones.
    Rows are finite maps; objects whose key order is observable are
    association lists.  The aggregation is stated on records that respect
    the [FreedomData] interface. *)

From Stdlib Require Import OrdersEx ZArith QArith Qround Qpower Lqa String Ascii DecimalString
  DecimalPos DecimalZ List Permutation Lia.
From stdpp Require Import gmap strings list fin_maps sorting.

Close Scope Q_scope.
Local Open Scope string_scope.

(** ** JavaScript scalars *)

Module JS.

(** The scalar values a decoded spreadsheet cell can hold.  Numeric cells are
    integers here; [VUndefined] is also what reading an absent property gives. *)
Inductive value : Type :=
| VUndefined
| VNull
| VBool (b : bool)
| VNumber (n : Z)
| VString (s : string).

#[global] Instance value_eq_dec : EqDecision value.
Proof. solve_decision. Defined.

(** ToBoolean. *)
Definition truthy (v : value) : bool :=
  match v with
  | VUndefined | VNull => false
  | VBool b => b
  | VNumber n => negb (n =? 0)%Z
  | VString s => negb (String.eqb s "")
  end.

(** [a || b]: the left operand when it is truthy, the right one otherwise. *)
Definition or_else (a b : value) : value := if truthy a then a else b.

Infix "|||" := or_else (at level 50, left associativity).

(** Number-to-string for integers (decimal digits, a leading minus sign). *)
Definition string_of_Z (n : Z) : string := NilZero.string_of_int (Z.to_int n).

Definition string_of_nat (n : nat) : string := NilZero.string_of_uint (Nat.to_uint n).

(** ToString. *)
Definition toString (v : value) : string :=
  match v with
  | VUndefined => "undefined"
  | VNull => "null"
  | VBool true => "true"
  | VBool false => "false"
  | VNumber n => string_of_Z n
  | VString s => s
  end.

(** *** Length and prefix in code units *)

(** A byte that continues a character, and a byte that starts a character
    outside the basic plane (two code units). *)
Definition isContinuation (c : ascii) : bool :=
  let n := N_of_ascii c in ((128 <=? n) && (n <? 192))%N.

Definition codeUnits (c : ascii) : nat :=
  if isContinuation c then 0 else if (240 <=? N_of_ascii c)%N then 2 else 1.

(** [s.length] *)
Fixpoint length16 (s : string) : nat :=
  match s with
  | String c s' => codeUnits c + length16 s'
  | EmptyString => 0
  end.

(** The code point of a character of four bytes. *)
Definition codePoint4 (a b c d : ascii) : N :=
  ((N_of_ascii a - 240) * 262144 + (N_of_ascii b - 128) * 4096
   + (N_of_ascii c - 128) * 64 + (N_of_ascii d - 128))%N.

(** The two code units of a character outside the basic plane. *)
Definition highSurrogate (codePoint : N) : N := (55296 + (codePoint - 65536) / 1024)%N.
Definition lowSurrogate (codePoint : N) : N := (56320 + (codePoint - 65536) mod 1024)%N.

(** The three bytes of a code unit from U+0800 on. *)
Definition threeBytes (unit : N) : string :=
  String (ascii_of_N (224 + unit / 4096))
    (String (ascii_of_N (128 + (unit / 64) mod 64))
       (String (ascii_of_N (128 + unit mod 64)) EmptyString)).

(** [s.substring(0, n)]; of a character of two code units the first unit is
    kept, standing alone, when only that one fits. *)
Fixpoint prefix16 (n : nat) (s : string) : string :=
  match s with
  | String c s' =>
      if isContinuation c then String c (prefix16 n s')
      else if (codeUnits c <=? n)%nat then String c (prefix16 (n - codeUnits c) s')
      else
        match n, s' with
        | S _, String b2 (String b3 (String b4 _)) =>
            threeBytes (highSurrogate (codePoint4 c b2 b3 b4))
        | _, _ => EmptyString
        end
  | EmptyString => EmptyString
  end.

(** *** Order of strings *)

(** The UTF-16 code units of a string. *)
Fixpoint units (s : string) : list N :=
  match s with
  | EmptyString => []
  | String a s1 =>
      let x := N_of_ascii a in
      if (x <? 192)%N then x :: units s1
      else
        match s1 with
        | EmptyString => [x]
        | String b s2 =>
            let y := (N_of_ascii b - 128)%N in
            if (x <? 224)%N then ((x - 192) * 64 + y)%N :: units s2
            else
              match s2 with
              | EmptyString => [x; N_of_ascii b]
              | String c s3 =>
                  let z := (N_of_ascii c - 128)%N in
                  if (x <? 240)%N
                  then ((x - 224) * 4096 + y * 64 + z)%N :: units s3
                  else
                    match s3 with
                    | EmptyString => [x; N_of_ascii b; N_of_ascii c]
                    | String d s4 =>
                        let codePoint := codePoint4 a b c d in
                        highSurrogate codePoint :: lowSurrogate codePoint :: units s4
                    end
              end
        end
  end.

(** The order of two sequences of code units: the first unit that differs
    decides, and a proper prefix comes first. *)
Fixpoint unitsBefore (l k : list N) : bool :=
  match l, k with
  | _, [] => false
  | [], _ :: _ => true
  | x :: l', y :: k' => ((x <? y)%N || ((x =? y)%N && unitsBefore l' k'))%bool
  end.

(** [s < t] on strings. *)
Definition lessThan (s t : string) : bool := unitsBefore (units s) (units t).

(** *** parseInt *)

Definition code (c : ascii) : N := N_of_ascii c.

(** White space and line terminators of one byte: TAB, LF, VT, FF, CR, SP. *)
Definition isWhiteSpace (c : ascii) : bool :=
  let n := code c in ((9 <=? n) && (n <=? 13) || (n =? 32))%N.

(** U+00A0, in two bytes. *)
Definition isWhiteSpace2 (a b : ascii) : bool :=
  ((code a =? 194) && (code b =? 160))%N.

(** U+1680, U+2000 to U+200A, U+2028, U+2029, U+202F, U+205F, U+3000 and
    U+FEFF, in three bytes. *)
Definition isWhiteSpace3 (a b c : ascii) : bool :=
  let '(x, y, z) := (code a, code b, code c) in
  ((x =? 225) && (y =? 154) && (z =? 128)
   || (x =? 226) && (y =? 128)
      && ((128 <=? z) && (z <=? 138) || (z =? 168) || (z =? 169) || (z =? 175))
   || (x =? 226) && (y =? 129) && (z =? 159)
   || (x =? 227) && (y =? 128) && (z =? 128)
   || (x =? 239) && (y =? 187) && (z =? 191))%N.

Fixpoint trimStart (s : string) : string :=
  match s with
  | String a s1 =>
      if isWhiteSpace a then trimStart s1
      else
        match s1 with
        | String b s2 =>
            if isWhiteSpace2 a b then trimStart s2
            else
              match s2 with
              | String c s3 => if isWhiteSpace3 a b c then trimStart s3 else s
              | EmptyString => s
              end
        | EmptyString => s
        end
  | EmptyString => s
  end.

Definition digitValue (c : ascii) : option Z :=
  let n := Z.of_N (N_of_ascii c) in
  if ((48 <=? n) && (n <=? 57))%Z then Some (n - 48)%Z
  else if ((97 <=? n) && (n <=? 122))%Z then Some (n - 87)%Z
  else if ((65 <=? n) && (n <=? 90))%Z then Some (n - 55)%Z
  else None.

(** The longest prefix of digits of the radix; [None] when it is empty. *)
Fixpoint parseDigits (radix : Z) (s : string) (acc : option Z) : option Z :=
  match s with
  | String c s' =>
      match digitValue c with
      | Some d =>
          if (d <? radix)%Z
          then parseDigits radix s' (Some (default 0 acc * radix + d))%Z
          else acc
      | None => acc
      end
  | EmptyString => acc
  end.

(** [parseInt(s)] without a radix argument: leading white space, an optional
    sign, an optional [0x] prefix, then digits.  [None] stands for NaN. *)
Definition parseIntString (s : string) : option Z :=
  let s := trimStart s in
  let '(sign, s) :=
    match s with
    | String "-" s' => ((-1)%Z, s')
    | String "+" s' => (1%Z, s')
    | _ => (1%Z, s)
    end in
  let '(radix, s) :=
    match s with
    | String "0" (String "x" s') | String "0" (String "X" s') => (16%Z, s')
    | _ => (10%Z, s)
    end in
  (fun n => sign * n)%Z <$> parseDigits radix s None.

Definition parseInt (v : value) : option Z := parseIntString (toString v).

End JS.

Export JS.

(** ** FileUpload: from spreadsheet rows to records *)

Module FileUpload.

(** A row of [XLSX.utils.sheet_to_json]: column name to cell value. *)
Abbreviation RawRow := (gmap string value).

(** [row.key], [row["key"]]. *)
Definition get (row : RawRow) (key : string) : value :=
  default VUndefined (row !! key).

(** [{ a: ..., b: ..., ...row }]: the own properties of [row] are copied over
    the properties written before the spread. *)
Definition spread (row base : gmap string value) : gmap string value := row ∪ base.

Section Transform.

(** [new Date().getFullYear()] *)
Variable currentYear : Z.

(** The callback of [jsonData.map((row, index) => ...)]. *)
Definition transformRow (index : nat) (row : RawRow) : gmap string value :=
  let country := get row "Pays" ||| get row "Country" ||| get row "country"
                 ||| VString ("Pays " ++ string_of_nat index) in
  let region := get row "Region" ||| get row "region" ||| VString "Non spécifiée" in
  let year := parseInt (get row "Année" ||| get row "Year" ||| get row "year"
                        ||| VNumber currentYear) in
  let status := get row "Status" ||| get row "status" ||| VString "Non spécifié" in
  let politicalRights :=
    parseInt (get row "Droits politiques" ||| get row "Political Rights"
              ||| get row "politicalRights" ||| VNumber 0) in
  let civilLiberties :=
    parseInt (get row "Libertés civiles" ||| get row "Civil Liberties"
              ||| get row "civilLiberties" ||| VNumber 0) in
  spread row
    (list_to_map
       [ ("country", country);
         ("region", region);
         ("year", VNumber (default currentYear year));
         ("status", status);
         ("politicalRights", VNumber (default 0%Z politicalRights));
         ("civilLiberties", VNumber (default 0%Z civilLiberties));
         ("totalScore",
           VNumber (default 0%Z politicalRights + default 0%Z civilLiberties)) ]).

Definition transformedData (jsonData : list RawRow) : list (gmap string value) :=
  imap transformRow jsonData.

End Transform.

End FileUpload.

(** ** Numbers: quotients and their display *)

Module Number.

(** A double: a finite one by its value, or one of the non-finite ones. *)
Inductive number : Type :=
| Finite (q : Q)
| NaN
| Infinity (negative : bool).

(** The [e] with [2^e <= q < 2^(e+1)], for [q > 0]. *)
Definition exponent (q : Q) : Z :=
  let k := (Z.log2 (Qnum q) - Z.log2 (Zpos (Qden q)))%Z in
  if Qle_bool (2 ^ k)%Q q then k else (k - 1)%Z.

(** The nearest integer, the even one on a tie. *)
Definition nearestEven (q : Q) : Z :=
  let f := Qfloor q in
  match (q - inject_Z f ?= 1 # 2)%Q with
  | Lt => f
  | Gt => (f + 1)%Z
  | Eq => if Z.even f then f else (f + 1)%Z
  end.

(** The double nearest to [q > 0]: 53 significant bits, with exponents from
    -1074 on; [None] when it is 2^1024 or more. *)
Definition nearestDouble (q : Q) : option Q :=
  let e := Z.max (exponent q - 52) (-1074) in
  let r := Qred (inject_Z (nearestEven (q / 2 ^ e)) * 2 ^ e)%Q in
  if Qle_bool (2 ^ 1024)%Q r then None else Some r.

(** The result of an arithmetic operation whose exact value is [q]: the
    nearest double, the one with an even significand on a tie. *)
Definition double (q : Q) : number :=
  match (q ?= 0)%Q with
  | Eq => Finite 0
  | Gt => match nearestDouble q with
          | Some r => Finite r
          | None => Infinity false
          end
  | Lt => match nearestDouble (- q) with
          | Some r => Finite (- r)
          | None => Infinity true
          end
  end.

(** [a / b] for integer operands. *)
Definition div (a b : Z) : number :=
  if (b =? 0)%Z
  then (if (a =? 0)%Z then NaN else Infinity (a <? 0)%Z)
  else double (inject_Z a / inject_Z b).

Definition Qltb (p q : Q) : bool :=
  match (p ?= q)%Q with Lt => true | _ => false end.

(** [x < y] *)
Definition lt (x y : number) : bool :=
  match x, y with
  | Finite p, Finite q => Qltb p q
  | NaN, _ | _, NaN => false
  | Infinity true, Infinity true => false
  | Infinity true, _ => true
  | Finite _, Infinity false => true
  | _, _ => false
  end.

(** [x > y] *)
Definition gt (x y : number) : bool := lt y x.

(** [x + q] and [x - q] for a finite constant [q]. *)
Definition plus (x : number) (q : Q) : number :=
  match x with Finite p => double (p + q) | _ => x end.

Definition minus (x : number) (q : Q) : number :=
  match x with Finite p => double (p - q) | _ => x end.

(** [x * 100] *)
Definition times100 (x : number) : number :=
  match x with Finite p => double (p * 100) | _ => x end.

(** The integer [n] for which [n / 10] is closest to [q >= 0], the larger one
    on a tie. *)
Definition roundTenths (q : Q) : Z := Qfloor (q * 10 + (1 # 2)).

(** The digits of [t / 10] with one decimal. *)
Definition showTenths (t : Z) : string :=
  string_of_Z (t / 10) ++ "." ++ string_of_Z (t mod 10).

(** [x.toFixed(1)] (for magnitudes below 10^21). *)
Definition toFixed1 (x : number) : string :=
  match x with
  | NaN => "NaN"
  | Infinity negative => if negative then "-Infinity" else "Infinity"
  | Finite q =>
      if Qltb q 0 then "-" ++ showTenths (roundTenths (- q))
      else showTenths (roundTenths q)
  end.

End Number.

(** ** Arrays and objects *)

Module Arr.

Section Sort.
Context {A : Type}.
(** [comparefn a b > 0] puts [a] after [b]. *)
Variable comparefn : A → A → Z.

Fixpoint place (x : A) (l : list A) : list A :=
  match l with
  | [] => [x]
  | y :: l' => if (0 <? comparefn x y)%Z then y :: place x l' else x :: l
  end.

(** [Array.prototype.sort(comparefn)]: a stable sort. *)
Definition sort (l : list A) : list A := foldr place [] l.
End Sort.

(** The comparison of [sort()] without an argument: by the string forms,
    which hold digits and a sign, where the order of bytes is that of code
    units. *)
Definition defaultCompare (a b : Z) : Z :=
  let x := string_of_Z a in
  let y := string_of_Z b in
  if String.ltb x y then (-1)%Z else if String.ltb y x then 1%Z else 0%Z.

End Arr.

Module Obj.

(** The property names every object created by [{}] inherits. *)
Definition objectPrototype : list string :=
  [ "constructor"; "__defineGetter__"; "__defineSetter__"; "hasOwnProperty";
    "__lookupGetter__"; "__lookupSetter__"; "isPrototypeOf";
    "propertyIsEnumerable"; "toString"; "valueOf"; "__proto__";
    "toLocaleString" ].

Section Dict.
(** An object used as a dictionary: its own properties in creation order.
    Keys are property names, or the integers whose decimal forms are the
    property names. *)
Context {K V : Type} `{EqDecision K}.

(** The keys that are array indices ([0 .. 2^32 - 2]). *)
Variable arrayIndex : K → option Z.

Fixpoint get (k : K) (o : list (K * V)) : option V :=
  match o with
  | [] => None
  | (k', v) :: o' => if decide (k = k') then Some v else get k o'
  end.

Fixpoint set (k : K) (v : V) (o : list (K * V)) : list (K * V) :=
  match o with
  | [] => [(k, v)]
  | (k', v') :: o' =>
      if decide (k = k') then (k, v) :: o' else (k', v') :: set k v o'
  end.

(** [Object.entries]: array indices first, in ascending order, then the
    other keys in creation order. *)
Definition entries (o : list (K * V)) : list (K * V) :=
  Arr.sort (λ p q, default 0 (arrayIndex p.1) - default 0 (arrayIndex q.1))%Z
           (filter (λ p, is_Some (arrayIndex p.1)) o)
  ++ filter (λ p, ¬ is_Some (arrayIndex p.1)) o.

Definition keys (o : list (K * V)) : list K := fst <$> entries o.
Definition values (o : list (K * V)) : list V := snd <$> entries o.
End Dict.

Definition indexOfNumber (k : Z) : option Z :=
  if ((0 <=? k) && (k <? 4294967295))%Z then Some k else None.

Definition indexOfString (k : string) : option Z :=
  match parseDigits 10 k None with
  | Some n =>
      if String.eqb (string_of_Z n) k && (n <? 4294967295)%Z then Some n else None
  | None => None
  end.

End Obj.

(** ** Dashboard: the record type *)

Module Dashboard.

Record FreedomData : Type := {
  country : string;
  region : string;
  year : Z;
  status : string;
  politicalRights : Z;
  civilLiberties : Z;
  totalScore : Z
}.

End Dashboard.

Export Dashboard.

(** ** StatsCards: headline statistics and trend *)

Module StatsCards.

Inductive Trend : Type := stable | improving | declining.

(** The per-year accumulator [{ totalScore, count, political, civil }]. *)
Record YearlyData : Type := {
  acc_totalScore : Z;
  acc_count : Z;
  acc_political : Z;
  acc_civil : Z
}.

Record Stats : Type := {
  totalCountries : nat;
  freeCountries : nat;
  partiallyFreeCountries : nat;
  notFreeCountries : nat;
  avgPoliticalRights : string;
  avgCivilLiberties : string;
  avgTotalScore : string;
  uniqueRegions : nat;
  uniqueYears : nat;
  trend : Trend;
  freePercentage : string;
  partiallyFreePercentage : string;
  notFreePercentage : string
}.

(** [data.filter(d => d.status === label).length] *)
Definition countStatus (label : string) (data : list FreedomData) : nat :=
  length (filter (λ d, status d = label) data).

(** [data.reduce((sum, d) => sum + f(d), 0)] *)
Definition sumOf (f : FreedomData → Z) (data : list FreedomData) : Z :=
  foldl (λ sum d, sum + f d)%Z 0%Z data.

(** [{ totalScore: 0, count: 0, political: 0, civil: 0 }] *)
Definition newYear : YearlyData :=
  {| acc_totalScore := 0; acc_count := 0; acc_political := 0; acc_civil := 0 |}.

(** The increments that one item makes on the entry of its year. *)
Definition countItem (entry : YearlyData) (item : FreedomData) : YearlyData :=
  {| acc_totalScore := acc_totalScore entry + totalScore item;
     acc_count := acc_count entry + 1;
     acc_political := acc_political entry + politicalRights item;
     acc_civil := acc_civil entry + civilLiberties item |}%Z.

(** One step of the reduction that builds [yearlyData]. *)
Definition addYear (acc : list (Z * YearlyData)) (item : FreedomData)
  : list (Z * YearlyData) :=
  let year := year item in
  Obj.set year (countItem (default newYear (Obj.get year acc)) item) acc.

Definition yearlyData (data : list FreedomData) : list (Z * YearlyData) :=
  foldl addYear [] data.

(** [Object.keys(yearlyData).map(Number).sort()] *)
Definition years (data : list FreedomData) : list Z :=
  Arr.sort Arr.defaultCompare (Obj.keys Obj.indexOfNumber (yearlyData data)).

(** The trend between the first and the last element of [years].  The two
    look-ups cannot fail, since [years] holds the keys of [yearlyData]. *)
Definition trendOf (data : list FreedomData) : Trend :=
  let yearlyData := yearlyData data in
  let years := years data in
  if bool_decide (1 < length years) then
    match head years ≫= (λ y, Obj.get y yearlyData),
          last years ≫= (λ y, Obj.get y yearlyData) with
    | Some firstYear, Some lastYear =>
        let firstAvg := Number.div (acc_totalScore firstYear) (acc_count firstYear) in
        let lastAvg := Number.div (acc_totalScore lastYear) (acc_count lastYear) in
        if Number.gt lastAvg (Number.plus firstAvg (1 # 2)) then improving
        else if Number.lt lastAvg (Number.minus firstAvg (1 # 2)) then declining
        else stable
    | _, _ => stable
    end
  else stable.

(** The [stats] memo; [None] is [null]. *)
Definition stats (data : list FreedomData) : option Stats :=
  if bool_decide (length data = 0) then None
  else
    let totalCountries := length data in
    let freeCountries := countStatus "Libre" data in
    let partiallyFreeCountries := countStatus "Partiellement libre" data in
    let notFreeCountries := countStatus "Pas libre" data in
    let avgPoliticalRights :=
      Number.div (sumOf politicalRights data) (Z.of_nat totalCountries) in
    let avgCivilLiberties :=
      Number.div (sumOf civilLiberties data) (Z.of_nat totalCountries) in
    let avgTotalScore :=
      Number.div (sumOf totalScore data) (Z.of_nat totalCountries) in
    let percentage (n : nat) :=
      Number.toFixed1
        (Number.times100 (Number.div (Z.of_nat n) (Z.of_nat totalCountries))) in
    Some {|
      totalCountries := totalCountries;
      freeCountries := freeCountries;
      partiallyFreeCountries := partiallyFreeCountries;
      notFreeCountries := notFreeCountries;
      avgPoliticalRights := Number.toFixed1 avgPoliticalRights;
      avgCivilLiberties := Number.toFixed1 avgCivilLiberties;
      avgTotalScore := Number.toFixed1 avgTotalScore;
      uniqueRegions := size (list_to_set (region <$> data) : gset string);
      uniqueYears := size (list_to_set (year <$> data) : gset Z);
      trend := trendOf data;
      freePercentage := percentage freeCountries;
      partiallyFreePercentage := percentage partiallyFreeCountries;
      notFreePercentage := percentage notFreeCountries
    |}.

End StatsCards.

(** ** DataVisualization: the chart series *)

Module DataVisualization.

(** What a slot of a counting dictionary holds: a count, or the string left
    by [f + 1] when the slot name is inherited from [Object.prototype]. *)
Inductive tally : Type :=
| Count (n : nat)
| Text.

(** [acc[key] = (acc[key] || 0) + 1] on an object created by [{}].  Reading
    an inherited name gives a function or an object, and adding 1 to it a
    string; the setter of [__proto__] ignores a string. *)
Definition increment (acc : list (string * tally)) (key : string)
  : list (string * tally) :=
  match Obj.get key acc with
  | Some (Count n) => Obj.set key (Count (n + 1)) acc
  | Some Text => Obj.set key Text acc
  | None =>
      if decide (key = "__proto__") then acc
      else if decide (key ∈ Obj.objectPrototype) then Obj.set key Text acc
      else Obj.set key (Count 1) acc
  end.

(** [data.reduce((acc, item) => { acc[key(item)] = ...; return acc; }, {})] *)
Definition distributionBy (key : FreedomData → string) (data : list FreedomData)
  : list (string * tally) :=
  foldl (λ acc item, increment acc (key item)) [] data.

(** [value / n] *)
Definition tallyDiv (value : tally) (n : nat) : Number.number :=
  match value with
  | Count c => Number.div (Z.of_nat c) (Z.of_nat n)
  | Text => Number.NaN
  end.

(** *** Status distribution *)

Module Status.
Record Slice : Type := { name : string; value : tally; percentage : string }.
End Status.

Definition statusDistribution (data : list FreedomData) : list Status.Slice :=
  let distribution := distributionBy status data in
  (λ '(name, value),
     {| Status.name := name;
        Status.value := value;
        Status.percentage :=
          Number.toFixed1 (Number.times100 (tallyDiv value (length data))) |})
  <$> Obj.entries Obj.indexOfString distribution.

(** *** Region summary *)

Module Region.
Record Bar : Type := {
  name : string;
  fullName : string;
  count : tally;
  avgPolitical : Number.number;
  avgCivil : Number.number
}.
End Region.

(** [name.length > 15 ? name.substring(0, 15) + "..." : name] *)
Definition shorten (name : string) : string :=
  if bool_decide (15 < length16 name)
  then prefix16 15 name ++ "..."
  else name.

(** [b.count - a.count]; a difference that is not a number compares as 0. *)
Definition byCountDescending (a b : Region.Bar) : Z :=
  match Region.count b, Region.count a with
  | Count m, Count n => Z.of_nat m - Z.of_nat n
  | _, _ => 0
  end.

Definition regionDistribution (data : list FreedomData) : list Region.Bar :=
  let distribution := distributionBy region data in
  take 10
    (Arr.sort byCountDescending
       ((λ '(name, count),
           let members := filter (λ d, region d = name) data in
           {| Region.name := shorten name;
              Region.fullName := name;
              Region.count := count;
              Region.avgPolitical :=
                Number.div (StatsCards.sumOf politicalRights members)
                           (Z.of_nat (length members));
              Region.avgCivil :=
                Number.div (StatsCards.sumOf civilLiberties members)
                           (Z.of_nat (length members)) |})
        <$> Obj.entries Obj.indexOfString distribution)).

(** *** Yearly series *)

Module Yearly.
(** The entries of [yearData]; [avgPolitical] and [avgCivil] hold sums
    ([T = Z]) while the rows are read, and one-decimal averages
    ([T = string]) in the series that is returned. *)
Record Point (T : Type) : Type := {
  year : Z;
  totalCountries : Z;
  avgPolitical : T;
  avgCivil : T;
  libre : nat;
  partLibre : nat;
  pasLibre : nat
}.
Arguments year {T}.
Arguments totalCountries {T}.
Arguments avgPolitical {T}.
Arguments avgCivil {T}.
Arguments libre {T}.
Arguments partLibre {T}.
Arguments pasLibre {T}.
End Yearly.

(** The entry created for a year that has none:
    [{ year, totalCountries: 0, avgPolitical: 0, avgCivil: 0, libre: 0,
       partLibre: 0, pasLibre: 0 }]. *)
Definition newYear (year : Z) : Yearly.Point Z :=
  {| Yearly.year := year; Yearly.totalCountries := 0;
     Yearly.avgPolitical := 0%Z; Yearly.avgCivil := 0%Z;
     Yearly.libre := 0; Yearly.partLibre := 0; Yearly.pasLibre := 0 |}.

(** The increments that one item makes on the entry of its year. *)
Definition countItem (entry : Yearly.Point Z) (item : FreedomData) : Yearly.Point Z :=
  let isLibre := bool_decide (status item = "Libre") in
  let isPartLibre := bool_decide (status item = "Partiellement libre") in
  {| Yearly.year := Yearly.year entry;
     Yearly.totalCountries := (Yearly.totalCountries entry + 1)%Z;
     Yearly.avgPolitical := (Yearly.avgPolitical entry + politicalRights item)%Z;
     Yearly.avgCivil := (Yearly.avgCivil entry + civilLiberties item)%Z;
     Yearly.libre :=
       if isLibre then Yearly.libre entry + 1 else Yearly.libre entry;
     Yearly.partLibre :=
       if isLibre then Yearly.partLibre entry
       else if isPartLibre then Yearly.partLibre entry + 1
       else Yearly.partLibre entry;
     Yearly.pasLibre :=
       if isLibre then Yearly.pasLibre entry
       else if isPartLibre then Yearly.pasLibre entry
       else Yearly.pasLibre entry + 1 |}.

(** One step of the reduction that builds [yearData]. *)
Definition addYear (acc : list (Z * Yearly.Point Z)) (item : FreedomData)
  : list (Z * Yearly.Point Z) :=
  let year := Dashboard.year item in
  Obj.set year (countItem (default (newYear year) (Obj.get year acc)) item) acc.

Definition yearData (data : list FreedomData) : list (Z * Yearly.Point Z) :=
  foldl addYear [] data.

(** [{ ...item, avgPolitical: (...).toFixed(1), avgCivil: (...).toFixed(1) }] *)
Definition finish (item : Yearly.Point Z) : Yearly.Point string :=
  {| Yearly.year := Yearly.year item;
     Yearly.totalCountries := Yearly.totalCountries item;
     Yearly.avgPolitical :=
       Number.toFixed1 (Number.div (Yearly.avgPolitical item) (Yearly.totalCountries item));
     Yearly.avgCivil :=
       Number.toFixed1 (Number.div (Yearly.avgCivil item) (Yearly.totalCountries item));
     Yearly.libre := Yearly.libre item;
     Yearly.partLibre := Yearly.partLibre item;
     Yearly.pasLibre := Yearly.pasLibre item |}.

Definition yearlyTrends (data : list FreedomData) : list (Yearly.Point string) :=
  Arr.sort (λ a b, Yearly.year a - Yearly.year b)%Z
    (finish <$> Obj.values Obj.indexOfNumber (yearData data)).

End DataVisualization.

(** ** DataTable: the sorted view *)

Module DataTable.

(** The columns of the table ([keyof FreedomData]). *)
Inductive Column : Type :=
| Country | Region | Year | Status | PoliticalRights | CivilLiberties | TotalScore.

Inductive Direction : Type := asc | desc.

(** [a[sortColumn]] *)
Definition cell (column : Column) (a : FreedomData) : value :=
  match column with
  | Country => VString (country a)
  | Region => VString (region a)
  | Year => VNumber (year a)
  | Status => VString (status a)
  | PoliticalRights => VNumber (politicalRights a)
  | CivilLiberties => VNumber (civilLiberties a)
  | TotalScore => VNumber (totalScore a)
  end.

(** Arrays live in a store: [data] is a reference that the component shares
    with its parent. *)
Abbreviation Store := (gmap nat (list FreedomData)).

Section SortedData.
(** [String.prototype.toLowerCase] *)
Variable toLowerCase : string → string.

(** The comparison function handed to [sort]. *)
Definition compareRows (sortColumn : Column) (sortDirection : Direction)
           (a b : FreedomData) : Z :=
  match cell sortColumn a, cell sortColumn b with
  | VNumber aValue, VNumber bValue =>
      match sortDirection with
      | asc => aValue - bValue
      | desc => bValue - aValue
      end
  | aValue, bValue =>
      let aString := toLowerCase (toString aValue) in
      let bString := toLowerCase (toString bValue) in
      match sortDirection with
      | asc =>
          if lessThan aString bString then -1
          else if lessThan bString aString then 1 else 0
      | desc =>
          if lessThan bString aString then -1
          else if lessThan aString bString then 1 else 0
      end
  end%Z.

(** [[...data]]: a new array with the elements of [data]. *)
Definition copyArray (σ : Store) (data : nat) : nat * Store :=
  let copy := fresh (dom σ) in
  (copy, <[copy := default [] (σ !! data)]> σ).

(** [array.sort(comparefn)] sorts the array in place and returns it. *)
Definition sortInPlace (comparefn : FreedomData → FreedomData → Z)
           (σ : Store) (array : nat) : nat * Store :=
  (array, alter (Arr.sort comparefn) array σ).

(** The [sortedData] memo: the reference it returns and the store after. *)
Definition sortedData (σ : Store) (data : nat) (sortColumn : option Column)
           (sortDirection : Direction) : nat * Store :=
  match sortColumn with
  | None => (data, σ)
  | Some column =>
      let '(copy, σ1) := copyArray σ data in
      sortInPlace (compareRows column sortDirection) σ1 copy
  end.
End SortedData.

End DataTable.

(** ** Dashboard: the state of the page, its filters and controls *)

Module DashboardView.

Inductive View : Type := table | charts.

(** The six [useState] cells of the component. *)
Record State : Type := {
  data : list FreedomData;
  filteredData : list FreedomData;
  activeView : View;
  searchTerm : string;
  regionFilter : string;
  statusFilter : string
}.

Definition initialState : State :=
  {| data := []; filteredData := []; activeView := table;
     searchTerm := ""; regionFilter := "all"; statusFilter := "all" |}.

Definition setData (v : list FreedomData) (st : State) : State :=
  {| data := v; filteredData := filteredData st; activeView := activeView st;
     searchTerm := searchTerm st; regionFilter := regionFilter st;
     statusFilter := statusFilter st |}.

Definition setFilteredData (v : list FreedomData) (st : State) : State :=
  {| data := data st; filteredData := v; activeView := activeView st;
     searchTerm := searchTerm st; regionFilter := regionFilter st;
     statusFilter := statusFilter st |}.

Definition setActiveView (v : View) (st : State) : State :=
  {| data := data st; filteredData := filteredData st; activeView := v;
     searchTerm := searchTerm st; regionFilter := regionFilter st;
     statusFilter := statusFilter st |}.

Definition setSearchTerm (v : string) (st : State) : State :=
  {| data := data st; filteredData := filteredData st; activeView := activeView st;
     searchTerm := v; regionFilter := regionFilter st;
     statusFilter := statusFilter st |}.

Definition setRegionFilter (v : string) (st : State) : State :=
  {| data := data st; filteredData := filteredData st; activeView := activeView st;
     searchTerm := searchTerm st; regionFilter := v;
     statusFilter := statusFilter st |}.

Definition setStatusFilter (v : string) (st : State) : State :=
  {| data := data st; filteredData := filteredData st; activeView := activeView st;
     searchTerm := searchTerm st; regionFilter := regionFilter st;
     statusFilter := v |}.

(** [s.includes(t)] *)
Fixpoint includes (s t : string) : bool :=
  (String.prefix t s
   || match s with
      | String _ s' => includes s' t
      | EmptyString => false
      end)%bool.

(** [[...new Set(l)]]: the distinct elements, in order of first occurrence. *)
Definition distinct {A : Type} `{EqDecision A} (l : list A) : list A :=
  foldl (λ seen x, if decide (x ∈ seen) then seen else (seen ++ [x])%list) [] l.

Section Handlers.
(** [String.prototype.toLowerCase] *)
Variable toLowerCase : string → string.

Definition applyFilters (st : State) (search region status : string) : State :=
  let filtered := data st in
  let filtered :=
    if negb (String.eqb search "")
    then filter (λ item, includes (toLowerCase (country item))
                                  (toLowerCase search) = true) filtered
    else filtered in
  let filtered :=
    if bool_decide (region ≠ "all")
    then filter (λ item, Dashboard.region item = region) filtered
    else filtered in
  let filtered :=
    if bool_decide (status ≠ "all")
    then filter (λ item, Dashboard.status item = status) filtered
    else filtered in
  setFilteredData filtered st.

Definition handleDataLoad (newData : list FreedomData) (st : State) : State :=
  setFilteredData newData (setData newData st).

Definition handleSearch (term : string) (st : State) : State :=
  applyFilters (setSearchTerm term st) term (regionFilter st) (statusFilter st).

Definition handleRegionFilter (region : string) (st : State) : State :=
  applyFilters (setRegionFilter region st) (searchTerm st) region (statusFilter st).

Definition handleStatusFilter (status : string) (st : State) : State :=
  applyFilters (setStatusFilter status st) (searchTerm st) (regionFilter st) status.

(** The options of the region select, after its first item [all]. *)
Definition uniqueRegions (st : State) : list string :=
  distinct (region <$> data st).

(** The items of the status select. *)
Definition statusOptions : list string :=
  [ "all"; "Libre"; "Partiellement libre"; "Pas libre" ].

(** What the user can do on the page. *)
Inductive Event : Type :=
| DataLoad (newData : list FreedomData)
| Search (term : string)
| SelectRegion (region : string)
| SelectStatus (status : string)
| ShowView (view : View).

(** The upload card is rendered while [data.length === 0], the controls
    while [data.length > 0]; a select yields one of its items. *)
Definition offered (st : State) (e : Event) : Prop :=
  match e with
  | DataLoad _ => length (data st) = 0
  | Search _ => 0 < length (data st)
  | SelectRegion region =>
      0 < length (data st) ∧ (region = "all" ∨ region ∈ uniqueRegions st)
  | SelectStatus status => 0 < length (data st) ∧ status ∈ statusOptions
  | ShowView _ => 0 < length (data st)
  end.

Definition handle (e : Event) (st : State) : State :=
  match e with
  | DataLoad newData => handleDataLoad newData st
  | Search term => handleSearch term st
  | SelectRegion region => handleRegionFilter region st
  | SelectStatus status => handleStatusFilter status st
  | ShowView view => setActiveView view st
  end.

(** The states of the page after any sequence of offered events. *)
Inductive reachable : State → Prop :=
| reachable_initial : reachable initialState
| reachable_step (st : State) (e : Event) :
    reachable st → offered st e → reachable (handle e st).

End Handlers.

End DashboardView.

(** ** DataTable: pages and sort controls *)

Module DataTableView.

#[global] Instance Column_eq_dec : EqDecision DataTable.Column.
Proof. solve_decision. Defined.

(** The [useState] cells of the component. *)
Record State : Type := {
  sortColumn : option DataTable.Column;
  sortDirection : DataTable.Direction;
  currentPage : Z;
  itemsPerPage : Z
}.

Definition initialState : State :=
  {| sortColumn := None; sortDirection := DataTable.asc;
     currentPage := 1; itemsPerPage := 10 |}.

Definition setSortColumn (v : option DataTable.Column) (st : State) : State :=
  {| sortColumn := v; sortDirection := sortDirection st;
     currentPage := currentPage st; itemsPerPage := itemsPerPage st |}.

Definition setSortDirection (v : DataTable.Direction) (st : State) : State :=
  {| sortColumn := sortColumn st; sortDirection := v;
     currentPage := currentPage st; itemsPerPage := itemsPerPage st |}.

Definition setCurrentPage (v : Z) (st : State) : State :=
  {| sortColumn := sortColumn st; sortDirection := sortDirection st;
     currentPage := v; itemsPerPage := itemsPerPage st |}.

(** [array.slice(start, end)]: a negative bound counts from the end. *)
Definition slice {A : Type} (start final : Z) (l : list A) : list A :=
  let len := Z.of_nat (length l) in
  let k := if (start <? 0)%Z then Z.max (len + start) 0 else Z.min start len in
  let final := if (final <? 0)%Z then Z.max (len + final) 0 else Z.min final len in
  take (Z.to_nat (final - k)) (drop (Z.to_nat k) l).

Definition paginatedData (sortedData : list FreedomData) (st : State)
  : list FreedomData :=
  let startIndex := ((currentPage st - 1) * itemsPerPage st)%Z in
  slice startIndex (startIndex + itemsPerPage st) sortedData.

(** [Math.ceil(sortedData.length / itemsPerPage)] *)
Definition totalPages (sortedData : list FreedomData) (st : State) : Z :=
  Qceiling (inject_Z (Z.of_nat (length sortedData)) / inject_Z (itemsPerPage st)).

Definition handleSort (column : DataTable.Column) (st : State) : State :=
  if decide (sortColumn st = Some column)
  then setSortDirection
         (match sortDirection st with
          | DataTable.asc => DataTable.desc
          | DataTable.desc => DataTable.asc
          end) st
  else setSortDirection DataTable.asc (setSortColumn (Some column) st).

(** The buttons of the pagination bar, which is rendered when
    [totalPages > 1]. *)
Definition previousPage (st : State) : State :=
  setCurrentPage (Z.max (currentPage st - 1) 1) st.

Definition nextPage (sortedData : list FreedomData) (st : State) : State :=
  setCurrentPage (Z.min (currentPage st + 1) (totalPages sortedData st)) st.

(** [Array.from({ length: Math.min(totalPages, 5) }, (_, i) => i + 1)] *)
Definition pageButtons (sortedData : list FreedomData) (st : State) : list Z :=
  (λ i, i + 1)%Z <$> seqZ 0 (Z.min (totalPages sortedData st) 5).

(** The two numbers of the line "Affichage de ... à ... sur ... résultats". *)
Definition rangeFrom (st : State) : Z :=
  ((currentPage st - 1) * itemsPerPage st + 1)%Z.

Definition rangeTo (sortedData : list FreedomData) (st : State) : Z :=
  Z.min (currentPage st * itemsPerPage st) (Z.of_nat (length sortedData)).

End DataTableView.

(** ** Reference quantities and sample collections *)

(** The share of [c] among [n], in tenths of a percent, rounded to the
    nearest tenth (the upper one on a tie). *)
Definition percentTenths (c n : nat) : Z :=
  ((2000 * Z.of_nat c + Z.of_nat n) / (2 * Z.of_nat n))%Z.

(** The largest relative error of a rounding to a double: 2^-53. *)
Definition ulpHalf : Q := (1 # 9007199254740992)%Q.

(** What is displayed for the share of [c] among [n], in tenths of a
    percent: the double [(c / n) * 100] rounded to the nearest tenth. *)
Definition shownTenths (c n : nat) : Z :=
  match Number.times100 (Number.div (Z.of_nat c) (Z.of_nat n)) with
  | Number.Finite p => Number.roundTenths p
  | _ => 0%Z
  end.

(** A number of tenths that is within half a tenth of the share of [c]
    among [n]. *)
Definition nearShare (t : Z) (c n : nat) : Prop :=
  (2000 * Z.of_nat c - Z.of_nat n ≤ 2 * Z.of_nat n * t
   ∧ 2 * Z.of_nat n * t ≤ 2000 * Z.of_nat c + Z.of_nat n)%Z.

(** The length of an array is below 2^32. *)
Definition arrayLength (n : nat) : Prop := (Z.of_nat n < 4294967296)%Z.

(** Ratings small enough for every sum of ratings over an array to be an
    integer that doubles hold exactly (at most 2^32 times 2^21). *)
Definition smallRating (n : Z) : Prop := (Z.abs n ≤ 2097152)%Z.

Definition exactSums (data : list FreedomData) : Prop :=
  arrayLength (length data)
  ∧ Forall (λ d, smallRating (politicalRights d) ∧ smallRating (civilLiberties d)
                 ∧ smallRating (totalScore d)) data.

#[global] Instance exactSums_dec (data : list FreedomData) : Decision (exactSums data).
Proof. unfold exactSums, arrayLength, smallRating. apply _. Defined.

(** An integer of magnitude at most 2^52: up to there the integers, and the
    sum of two of them, are doubles. *)
Definition safeInteger (n : Z) : Prop := (Z.abs n ≤ 4503599627370496)%Z.

(** A cell that [parseInt] reads as such an integer, or not as a number. *)
Definition readsSafely (v : value) : Prop :=
  match parseInt v with
  | Some n => safeInteger n
  | None => True
  end.

(** A row whose cells under the four rating headers are read safely. *)
Definition safeRatings (row : FileUpload.RawRow) : Prop :=
  readsSafely (FileUpload.get row "Droits politiques")
  ∧ readsSafely (FileUpload.get row "Political Rights")
  ∧ readsSafely (FileUpload.get row "Libertés civiles")
  ∧ readsSafely (FileUpload.get row "Civil Liberties").

Definition sumZ (l : list Z) : Z := foldr Z.add 0%Z l.

(** The three labels of the status type. *)
Definition canonicalStatus (s : string) : Prop :=
  s = "Libre" ∨ s = "Partiellement libre" ∨ s = "Pas libre".

(** The number that a slot of a counting dictionary adds to the total. *)
Definition weight (t : DataVisualization.tally) : nat :=
  match t with DataVisualization.Count n => n | DataVisualization.Text => 0 end.

Definition totalOf (o : list (string * DataVisualization.tally)) : nat :=
  sum_list ((λ p, weight p.2) <$> o).

(** The rows of a year, and the entry that summarises them. *)
Definition rowsOf (y : Z) (data : list FreedomData) : list FreedomData :=
  filter (λ d, year d = y) data.

Definition otherStatus (d : FreedomData) : Prop :=
  status d ≠ "Libre" ∧ status d ≠ "Partiellement libre".

#[global] Instance otherStatus_dec (d : FreedomData) : Decision (otherStatus d).
Proof. unfold otherStatus. apply _. Defined.

Definition summary (y : Z) (data : list FreedomData)
  : DataVisualization.Yearly.Point Z :=
  let rows := rowsOf y data in
  {| DataVisualization.Yearly.year := y;
     DataVisualization.Yearly.totalCountries := Z.of_nat (length rows);
     DataVisualization.Yearly.avgPolitical := StatsCards.sumOf politicalRights rows;
     DataVisualization.Yearly.avgCivil := StatsCards.sumOf civilLiberties rows;
     DataVisualization.Yearly.libre := StatsCards.countStatus "Libre" rows;
     DataVisualization.Yearly.partLibre :=
       StatsCards.countStatus "Partiellement libre" rows;
     DataVisualization.Yearly.pasLibre := length (filter otherStatus rows) |}.

(** The accumulator of a year: the totals over its rows. *)
Definition totals (y : Z) (data : list FreedomData) : StatsCards.YearlyData :=
  let rows := rowsOf y data in
  {| StatsCards.acc_totalScore := StatsCards.sumOf totalScore rows;
     StatsCards.acc_count := Z.of_nat (length rows);
     StatsCards.acc_political := StatsCards.sumOf politicalRights rows;
     StatsCards.acc_civil := StatsCards.sumOf civilLiberties rows |}.

(** The average total score of a year. *)
Definition averageScore (y : Z) (data : list FreedomData) : Number.number :=
  Number.div (StatsCards.sumOf totalScore (rowsOf y data))
             (Z.of_nat (length (rowsOf y data))).

(** The classification of the claim, from the averages of two years. *)
Definition classify (earliest latest : Number.number) : StatsCards.Trend :=
  if Number.gt latest (Number.plus earliest (1 # 2)) then StatsCards.improving
  else if Number.lt latest (Number.minus earliest (1 # 2)) then StatsCards.declining
  else StatsCards.stable.

Module Sample.

Definition record (year : Z) (status : string) (politicalRights civilLiberties : Z)
  : FreedomData :=
  {| country := "Utopia"; region := "Europe"; year := year; status := status;
     politicalRights := politicalRights; civilLiberties := civilLiberties;
     totalScore := politicalRights + civilLiberties |}.

(** Two years whose decimal forms differ in length. *)
Definition millennium : list FreedomData :=
  [ record 999 "Libre" 1 2; record 1000 "Libre" 2 3 ].

(** One free, one partly free and four not free records. *)
Definition sixths : list FreedomData :=
  [ record 2020 "Libre" 1 1; record 2020 "Partiellement libre" 3 4;
    record 2020 "Pas libre" 6 6; record 2020 "Pas libre" 7 7;
    record 2020 "Pas libre" 6 7; record 2020 "Pas libre" 7 6 ].

(** Six records with six different status texts. *)
Definition sixStatuses : list FreedomData :=
  [ record 2020 "Libre" 1 1; record 2020 "Partiellement libre" 3 4;
    record 2020 "Pas libre" 6 6; record 2020 "Non spécifié" 0 0;
    record 2020 "Inconnu" 0 0; record 2020 "En transition" 4 4 ].

(** A record whose status is none of the three labels. *)
Definition unspecified : list FreedomData := [ record 2020 "Non spécifié" 0 0 ].

(** Four free, three partly free and three not free records. *)
Definition tenRecords : list FreedomData :=
  replicate 4 (record 2020 "Libre" 1 1)
  ++ replicate 3 (record 2020 "Partiellement libre" 3 4)
  ++ replicate 3 (record 2020 "Pas libre" 6 6).

(** 669 records, of which one has a status outside the three labels. *)
Definition almostAll : list FreedomData :=
  replicate 191 (record 2020 "Libre" 1 1)
  ++ replicate 191 (record 2020 "Partiellement libre" 3 4)
  ++ replicate 286 (record 2020 "Pas libre" 6 6)
  ++ unspecified.

End Sample.

(** ** Reference predicates for the filters and the table *)

(** The records that the three controls of the page let through. *)
Definition matches (toLowerCase : string → string) (search region status : string)
           (item : FreedomData) : Prop :=
  (search = ""
   ∨ DashboardView.includes (toLowerCase (country item)) (toLowerCase search) = true)
  ∧ (region = "all" ∨ Dashboard.region item = region)
  ∧ (status = "all" ∨ Dashboard.status item = status).

#[global] Instance matches_dec (toLowerCase : string → string)
  (search region status : string) (item : FreedomData) :
  Decision (matches toLowerCase search region status item).
Proof. unfold matches. apply _. Defined.

(** The rows of page [p] when the pages hold [d] rows each. *)
Definition pageRows {A : Type} (d : nat) (p : nat) (l : list A) : list A :=
  take d (drop (p * d) l).

(** The order that a sort by [column] in [direction] asks of two rows, one
    before the other: numbers by value, other cells by the code units of
    their lower-cased string forms. *)
Definition inOrder (toLowerCase : string → string) (column : DataTable.Column)
           (direction : DataTable.Direction) (a b : FreedomData) : Prop :=
  let before (x y : value) : Prop :=
    match x, y with
    | VNumber m, VNumber n => (m ≤ n)%Z
    | _, _ => lessThan (toLowerCase (toString y)) (toLowerCase (toString x)) = false
    end in
  match direction with
  | DataTable.asc => before (DataTable.cell column a) (DataTable.cell column b)
  | DataTable.desc => before (DataTable.cell column b) (DataTable.cell column a)
  end.



(** A cell that holds the integer [n], of magnitude at most 2^52: as a
    number (not 0, which [||] passes over) or as its decimal text. *)
Definition integerCell (v : value) (n : Z) : Prop :=
  (Z.abs n ≤ 4503599627370496)%Z
  ∧ ((v = VNumber n ∧ n ≠ 0%Z) ∨ v = VString (string_of_Z n)).

(** ** Tactics *)

(** Evaluates the digit at the head of the string that [parseDigits] reads. *)
Ltac eval_digit :=
  match goal with
  | |- context [digitValue ?c] =>
      let v := eval vm_compute in (digitValue c) in
      change (digitValue c) with v; cbv beta iota;
      match goal with
      | |- context [(?k <? 10)%Z] =>
          let b := eval vm_compute in (k <? 10)%Z in
          change (k <? 10)%Z with b; cbv beta iota
      end
  end.

(** * Properties *)

Local Open Scope list_scope.

Import FileUpload.

(** ** Ingestion *)

Example parseInt_2020 : parseInt (VString "2020") = Some 2020%Z.
Proof. reflexivity. Qed.

Example parseInt_abc : parseInt (VString "abc") = None.
Proof. reflexivity. Qed.

Example parseInt_hex : parseInt (VString " -0x1fz") = Some (-31)%Z.
Proof. reflexivity. Qed.

Lemma or_else_falsy (a b : value) : truthy a = false → a ||| b = b.
Proof. unfold or_else. now intros ->. Qed.

Lemma or_else_truthy (a b : value) : truthy a = true → a ||| b = a.
Proof. unfold or_else. now intros ->. Qed.

Lemma get_absent (row : RawRow) (key : string) :
  row !! key = None → get row key = VUndefined.
Proof. unfold get. now intros ->. Qed.

(** A column of the row wins over the field of the same name. *)
Lemma spread_own (row base : gmap string value) (key : string) (v : value) :
  row !! key = Some v → spread row base !! key = Some v.
Proof. intros H. unfold spread. now apply lookup_union_Some_l. Qed.

Lemma spread_absent (row base : gmap string value) (key : string) :
  row !! key = None → spread row base !! key = base !! key.
Proof. intros H. unfold spread. now rewrite lookup_union_r. Qed.

(** One record per row, in the order of the rows. *)
Lemma transformedData_length (currentYear : Z) (jsonData : list RawRow) :
  length (transformedData currentYear jsonData) = length jsonData.
Proof. unfold transformedData. apply length_imap. Qed.

Lemma transformedData_lookup (currentYear : Z) (jsonData : list RawRow) (i : nat) :
  transformedData currentYear jsonData !! i
  = transformRow currentYear i <$> jsonData !! i.
Proof. unfold transformedData. apply list_lookup_imap. Qed.

(** The fields that the transformation computes, when the row has no column
    of the same name. *)
Lemma transformRow_totalScore (currentYear : Z) (i : nat) (row : RawRow) :
  row !! "politicalRights" = None →
  row !! "civilLiberties" = None →
  row !! "totalScore" = None →
  ∃ p c : Z,
    transformRow currentYear i row !! "politicalRights" = Some (VNumber p)
    ∧ transformRow currentYear i row !! "civilLiberties" = Some (VNumber c)
    ∧ transformRow currentYear i row !! "totalScore" = Some (VNumber (p + c)).
Proof.
  intros Hp Hc Ht. unfold transformRow.
  eexists _, _. repeat split.
  - rewrite spread_absent by assumption. reflexivity.
  - rewrite spread_absent by assumption. reflexivity.
  - rewrite spread_absent by assumption. reflexivity.
Qed.

Lemma or_else_undefined (a d : value) : a ||| VUndefined ||| d = a ||| d.
Proof. unfold or_else. destruct (truthy a) eqn:E; [now rewrite E | reflexivity]. Qed.

(** The numeric fallbacks, when the row has no column of the same name: a
    failed parse gives the current year, respectively 0. *)
Lemma transformRow_fallbacks (currentYear : Z) (i : nat) (row : RawRow) :
  row !! "year" = None →
  row !! "politicalRights" = None →
  row !! "civilLiberties" = None →
  transformRow currentYear i row !! "year"
  = Some (VNumber (default currentYear
                     (parseInt (get row "Année" ||| get row "Year"
                                ||| VNumber currentYear))))
  ∧ transformRow currentYear i row !! "politicalRights"
    = Some (VNumber (default 0%Z
                       (parseInt (get row "Droits politiques"
                                  ||| get row "Political Rights" ||| VNumber 0))))
  ∧ transformRow currentYear i row !! "civilLiberties"
    = Some (VNumber (default 0%Z
                       (parseInt (get row "Libertés civiles"
                                  ||| get row "Civil Liberties" ||| VNumber 0)))).
Proof.
  intros Hy Hp Hc. unfold transformRow.
  rewrite (get_absent row "year"), (get_absent row "politicalRights"),
    (get_absent row "civilLiberties") by assumption.
  rewrite !or_else_undefined.
  repeat split; rewrite spread_absent by assumption; reflexivity.
Qed.

(** The scenario of a row without year and rating columns, read in 2025. *)
Example missing_columns :
  let r := transformRow 2025 0 {[ "Pays" := VString "Utopia" ]} in
  r !! "year" = Some (VNumber 2025)
  ∧ r !! "politicalRights" = Some (VNumber 0)
  ∧ r !! "civilLiberties" = Some (VNumber 0)
  ∧ r !! "totalScore" = Some (VNumber 0).
Proof. repeat split; vm_compute; reflexivity. Qed.

(** C1, at a row with a [totalScore] column: the record carries the cell of
    that column, 99, and not the sum 1 + 2 of its two ratings. *)
Theorem totalScore_taken_from_column (currentYear : Z) :
  let row : RawRow :=
    list_to_map [ ("Droits politiques", VString "1");
                  ("Libertés civiles", VString "2");
                  ("totalScore", VNumber 99) ] in
  ∃ r, transformedData currentYear [row] = [r]
       ∧ r !! "politicalRights" = Some (VNumber 1)
       ∧ r !! "civilLiberties" = Some (VNumber 2)
       ∧ r !! "totalScore" = Some (VNumber 99).
Proof. eexists. split; [reflexivity|]. repeat split; vm_compute; reflexivity. Qed.

(** C2 as stated fails: the placeholder of a row without country columns
    starts with the word Pays. *)
Lemma placeholder_is_not_Country :
  let row : RawRow := {[ "Année" := VString "2020" ]} in
  row !! "Pays" = None ∧ row !! "Country" = None ∧ row !! "country" = None
  ∧ transformedData 2025 [row] !! 0%nat ≫= (.!! "country")
    = Some (VString "Pays 0")
  ∧ transformedData 2025 [row] !! 0%nat ≫= (.!! "country")
    ≠ Some (VString ("Country " ++ string_of_nat 0)%string).
Proof. repeat split; vm_compute; discriminate. Qed.

(** C2, amended: when the row at index [i] holds no truthy cell under [Pays]
    and [Country] and has no [country] column, the country of its record is
    the word Pays followed by the index. *)
Theorem placeholder_country (currentYear : Z) (jsonData : list RawRow)
        (i : nat) (row : RawRow) :
  jsonData !! i = Some row →
  truthy (get row "Pays") = false →
  truthy (get row "Country") = false →
  row !! "country" = None →
  ∃ r, transformedData currentYear jsonData !! i = Some r
       ∧ r !! "country" = Some (VString ("Pays " ++ string_of_nat i)%string).
Proof.
  intros Hi Hp Hc Hn. exists (transformRow currentYear i row). split.
  - rewrite transformedData_lookup, Hi. reflexivity.
  - unfold transformRow. rewrite spread_absent by assumption.
    rewrite (get_absent row "country") by assumption.
    rewrite (or_else_falsy (get row "Pays")) by assumption.
    rewrite (or_else_falsy (get row "Country")) by assumption.
    reflexivity.
Qed.

Lemma placeholder_country_witness :
  let rows : list RawRow :=
    [ {[ "Pays" := VString "Utopia" ]}; {[ "Pays" := VString "" ]} ] in
  ∃ r, transformedData 2025 rows !! 1%nat = Some r
       ∧ r !! "country" = Some (VString "Pays 1").
Proof.
  apply (placeholder_country 2025 _ 1 {[ "Pays" := VString "" ]});
    vm_compute; reflexivity.
Defined.

(** C6, at a row whose [year] column holds text: the record keeps the text
    and not the current year. *)
Theorem failed_year_parse_kept (currentYear : Z) :
  let row : RawRow := {[ "year" := VString "abc" ]} in
  parseInt (VString "abc") = None
  ∧ ∃ r, transformedData currentYear [row] = [r]
         ∧ r !! "year" = Some (VString "abc").
Proof. split; [reflexivity|]. eexists. split; [reflexivity|]. vm_compute. reflexivity. Qed.

(** C9: the row of Utopia gives one record with the fields of the scenario. *)
Theorem utopia_scenario (currentYear : Z) :
  let row : RawRow :=
    list_to_map [ ("Pays", VString "Utopia"); ("Année", VString "2020");
                  ("Droits politiques", VString "7");
                  ("Libertés civiles", VString "6") ] in
  ∃ r, transformedData currentYear [row] = [r]
       ∧ r !! "country" = Some (VString "Utopia")
       ∧ r !! "year" = Some (VNumber 2020)
       ∧ r !! "politicalRights" = Some (VNumber 7)
       ∧ r !! "civilLiberties" = Some (VNumber 6)
       ∧ r !! "totalScore" = Some (VNumber 13)
       ∧ r !! "status" = Some (VString "Non spécifié").
Proof. eexists. split; [reflexivity|]. repeat split; vm_compute; reflexivity. Qed.

(** ** Sorting *)

Section SortFacts.
Context {A : Type} (comparefn : A → A → Z).

Lemma place_Permutation (x : A) (l : list A) :
  Arr.place comparefn x l ≡ₚ x :: l.
Proof.
  induction l as [|y l IH]; simpl; [reflexivity|].
  destruct (0 <? comparefn x y)%Z; [|reflexivity].
  rewrite IH. apply Permutation_swap.
Qed.

Lemma sort_Permutation (l : list A) : Arr.sort comparefn l ≡ₚ l.
Proof.
  induction l as [|x l IH]; simpl; [reflexivity|].
  unfold Arr.sort in *. simpl. rewrite place_Permutation. now rewrite IH.
Qed.

Lemma sort_length (l : list A) : length (Arr.sort comparefn l) = length l.
Proof. apply Permutation_length, sort_Permutation. Qed.

Lemma sort_elem_of (x : A) (l : list A) : x ∈ Arr.sort comparefn l ↔ x ∈ l.
Proof. now rewrite sort_Permutation. Qed.
End SortFacts.

(** Sorting with [(a, b) => key(a) - key(b)] orders the keys. *)
Lemma place_sorted {A : Type} (key : A → Z) (x : A) (l : list A) :
  StronglySorted (λ a b, (key a ≤ key b)%Z) l →
  StronglySorted (λ a b, (key a ≤ key b)%Z)
                 (Arr.place (λ a b, (key a - key b)%Z) x l).
Proof.
  induction 1 as [|y l Hs IH Hy]; simpl.
  - repeat constructor.
  - destruct (0 <? key x - key y)%Z eqn:E.
    + apply Z.ltb_lt in E. constructor; [exact IH|].
      apply Forall_forall. intros z Hz.
      rewrite place_Permutation in Hz.
      apply elem_of_cons in Hz as [->|Hz].
      * lia.
      * rewrite Forall_forall in Hy. now apply Hy.
    + apply Z.ltb_ge in E. constructor; [now constructor|].
      constructor.
      * lia.
      * eapply Forall_impl; [exact Hy|]. cbn. intros z Hz. lia.
Qed.

Lemma sort_sorted {A : Type} (key : A → Z) (l : list A) :
  StronglySorted (λ a b, (key a ≤ key b)%Z)
                 (Arr.sort (λ a b, (key a - key b)%Z) l).
Proof.
  induction l as [|x l IH]; [constructor|].
  unfold Arr.sort in *. simpl. now apply place_sorted.
Qed.

(** ** The sorted view of the table *)

Import DataTable.

(** C10: [sortedData] leaves the array behind [data], and every array that
    exists, as it was; the array it returns holds a permutation of [data];
    without a sort column it returns [data] itself and allocates nothing. *)
Theorem sortedData_frame (toLowerCase : string → string) (σ : Store)
        (data : nat) (rows : list FreedomData)
        (sortColumn : option Column) (sortDirection : Direction) :
  σ !! data = Some rows →
  let '(result, σ') := sortedData toLowerCase σ data sortColumn sortDirection in
  σ' !! data = Some rows
  ∧ (∀ a, is_Some (σ !! a) → σ' !! a = σ !! a)
  ∧ (∃ sorted, σ' !! result = Some sorted ∧ sorted ≡ₚ rows)
  ∧ (sortColumn = None → result = data ∧ σ' = σ).
Proof.
  intros Hdata. destruct sortColumn as [column|]; simpl.
  - set (copy := fresh (dom σ)).
    assert (Hfresh : σ !! copy = None).
    { apply not_elem_of_dom. apply is_fresh. }
    assert (Hother : ∀ a, is_Some (σ !! a) → copy ≠ a).
    { intros a [x Ha] <-. congruence. }
    split; [|split; [|split]].
    + rewrite lookup_alter_ne, lookup_insert_ne; eauto.
    + intros a Ha. rewrite lookup_alter_ne, lookup_insert_ne; eauto.
    + exists (Arr.sort (compareRows toLowerCase column sortDirection) rows). split.
      * rewrite lookup_alter_eq, lookup_insert_eq, Hdata. reflexivity.
      * apply sort_Permutation.
    + discriminate.
  - split; [|split; [|split]]; eauto.
Qed.

Lemma sortedData_frame_witness :
  let rows :=
    [ {| country := "B"; region := "Europe"; year := 2021; status := "Libre";
         politicalRights := 1; civilLiberties := 2; totalScore := 3 |};
      {| country := "a"; region := "Asie"; year := 2020; status := "Pas libre";
         politicalRights := 6; civilLiberties := 7; totalScore := 13 |} ] in
  let σ : Store := {[ 0%nat := rows ]} in
  let '(result, σ') := sortedData id σ 0%nat (Some Year) asc in
  σ' !! 0%nat = Some rows
  ∧ (∀ a, is_Some (σ !! a) → σ' !! a = σ !! a)
  ∧ (∃ sorted, σ' !! result = Some sorted ∧ sorted ≡ₚ rows)
  ∧ (Some Year = None → result = 0%nat ∧ σ' = σ).
Proof.
  intros rows σ.
  apply (sortedData_frame id σ 0%nat rows (Some Year) asc).
  reflexivity.
Defined.

(** The label of a region is cut after fifteen code units, not bytes. *)
Example shorten_accented :
  DataVisualization.shorten "Amérique du Nord" = "Amérique du Nor...".
Proof. vm_compute. reflexivity. Qed.

(** ** Aggregation of the empty collection *)

(** C7: on the empty collection the headline statistics are [null] and the
    three chart series are empty; no quotient is formed. *)
Theorem empty_collection :
  StatsCards.stats [] = None
  ∧ DataVisualization.statusDistribution [] = []
  ∧ DataVisualization.regionDistribution [] = []
  ∧ DataVisualization.yearlyTrends [] = [].
Proof. repeat split. Qed.

(** ** Trend *)

(** C3, at years 999 and 1000: the later year has the higher average (5
    against 3), and the trend is [declining], because [sort()] puts 1000
    before 999. *)
Theorem trend_of_millennium :
  StatsCards.years Sample.millennium = [1000; 999]%Z
  ∧ StatsCards.trend <$> StatsCards.stats Sample.millennium
    = Some StatsCards.declining.
Proof. split; vm_compute; reflexivity. Qed.

(** ** Doubles *)

Open Scope Q_scope.

Lemma nearestEven_bounds (q : Q) :
  inject_Z (Number.nearestEven q) - q <= 1 # 2
  ∧ q - inject_Z (Number.nearestEven q) <= 1 # 2.
Proof.
  unfold Number.nearestEven.
  pose proof (Qfloor_le q) as Hlo. pose proof (Qlt_floor q) as Hhi.
  rewrite inject_Z_plus in Hhi. change (inject_Z 1) with 1 in Hhi.
  destruct (Qcompare_spec (q - inject_Z (Qfloor q)) (1 # 2)) as [E|E|E].
  - destruct (Z.even (Qfloor q)); [|rewrite inject_Z_plus; change (inject_Z 1) with 1];
      split; lra.
  - split; lra.
  - rewrite inject_Z_plus. change (inject_Z 1) with 1. split; lra.
Qed.

Lemma two_power_pos (e : Z) : 0 < 2 ^ e.
Proof. apply Qpower_0_lt. reflexivity. Qed.

Lemma two_power_succ (e : Z) : 2 ^ (e + 1) == 2 * 2 ^ e.
Proof. rewrite Qpower_plus by discriminate. change (2 ^ 1) with 2. ring. Qed.

Lemma log2_bounds (a : Z) :
  (0 < a)%Z →
  2 ^ Z.log2 a <= inject_Z a ∧ inject_Z a < 2 ^ (Z.log2 a + 1).
Proof.
  intros Ha. destruct (Z.log2_spec a Ha) as [Hlo Hhi].
  pose proof (Z.log2_nonneg a) as Hnn.
  rewrite <- !(Zpower_Qpower 2) by lia.
  split; [now rewrite <- Zle_Qle|].
  rewrite Z.add_1_r. now rewrite <- Zlt_Qlt.
Qed.

Lemma exponent_spec (q : Q) :
  0 < q → 2 ^ Number.exponent q <= q ∧ q < 2 ^ (Number.exponent q + 1).
Proof.
  intros Hq. unfold Number.exponent.
  destruct q as [a b]. cbn [Qnum Qden].
  assert (Ha : (0 < a)%Z).
  { unfold Qlt in Hq. cbn in Hq. lia. }
  destruct (log2_bounds a Ha) as [Halo Hahi].
  destruct (log2_bounds (Zpos b) eq_refl) as [Hblo Hbhi].
  set (la := Z.log2 a) in *. set (lb := Z.log2 (Zpos b)) in *.
  assert (Hq' : (a # b) * inject_Z (Zpos b) == inject_Z a).
  { unfold Qeq, Qmult, inject_Z. cbn. lia. }
  pose proof (two_power_pos la). pose proof (two_power_pos lb).
  pose proof (two_power_pos (la - lb)) as Hk.
  assert (Ek : 2 ^ (la - lb) * 2 ^ lb == 2 ^ la).
  { rewrite <- Qpower_plus by discriminate. now replace (la - lb + lb)%Z with la by lia. }
  pose proof (two_power_succ la) as Ela. pose proof (two_power_succ lb) as Elb.
  pose proof (two_power_succ (la - lb)) as Ek1.
  pose proof (two_power_succ (la - lb - 1)) as Ek0.
  replace (la - lb - 1 + 1)%Z with (la - lb)%Z in Ek0 by lia.
  destruct (Qle_bool (2 ^ (la - lb)) (a # b)) eqn:E.
  - apply Qle_bool_iff in E. split; [exact E|].
    (* q * 2^lb <= q * b = a < 2 * 2^la = 2 * 2^k * 2^lb *)
    apply Qnot_le_lt. intros Hge.
    assert ((2 ^ (la - lb + 1)) * 2 ^ lb <= (a # b) * inject_Z (Zpos b)).
    { apply Qle_trans with ((a # b) * 2 ^ lb).
      - apply Qmult_le_compat_r; [exact Hge | now apply Qlt_le_weak].
      - rewrite !(Qmult_comm (a # b)). apply Qmult_le_compat_r; [exact Hblo|].
        now apply Qlt_le_weak. }
    rewrite Hq', Ek1 in H1.
    assert (2 * 2 ^ (la - lb) * 2 ^ lb == 2 * 2 ^ la) by (rewrite <- Ek; ring).
    rewrite H2 in H1. lra.
  - assert (Hlt : (a # b) < 2 ^ (la - lb)).
    { apply Qnot_le_lt. intros Hle. apply Qle_bool_iff in Hle. congruence. }
    replace (la - lb - 1 + 1)%Z with (la - lb)%Z by lia.
    split; [|exact Hlt].
    (* 2^(k-1) * b < 2^(k-1) * 2 * 2^lb = 2^la <= a = q * b *)
    apply Qnot_lt_le. intros Hlt'.
    assert ((a # b) * inject_Z (Zpos b) < 2 ^ (la - lb - 1) * (2 * 2 ^ lb)).
    { apply Qle_lt_trans with ((a # b) * (2 * 2 ^ lb)).
      - rewrite !(Qmult_comm (a # b)). apply Qmult_le_compat_r; [lra|].
        now apply Qlt_le_weak.
      - apply Qmult_lt_compat_r; [lra | exact Hlt']. }
    rewrite Hq' in H1.
    assert (2 ^ (la - lb - 1) * (2 * 2 ^ lb) == 2 ^ la) by (rewrite <- Ek, Ek0; ring).
    rewrite H2 in H1. lra.
Qed.

Lemma nearestDouble_bounds (q : Q) :
  2 ^ (-1022) <= q → q < 2 ^ 1023 →
  ∃ r, Number.nearestDouble q = Some r
       ∧ q * (1 - ulpHalf) <= r ∧ r <= q * (1 + ulpHalf).
Proof.
  intros Hlo Hhi.
  assert (Hq : 0 < q) by (pose proof (two_power_pos (-1022)); lra).
  destruct (exponent_spec q Hq) as [Helo Hehi].
  set (e0 := Number.exponent q) in *.
  assert (He0 : (-1022 <= e0)%Z).
  { assert (2 ^ (-1022) < 2 ^ (e0 + 1)) by lra.
    apply Qpower_lt_compat_l_inv in H; [lia | reflexivity]. }
  unfold Number.nearestDouble. fold e0.
  rewrite Z.max_l by lia.
  set (e := (e0 - 52)%Z).
  pose proof (two_power_pos e) as Hpe.
  destruct (nearestEven_bounds (q / 2 ^ e)) as [Hm1 Hm2].
  set (m := inject_Z (Number.nearestEven (q / 2 ^ e))) in *.
  assert (Hdiv : q / 2 ^ e * 2 ^ e == q) by (field; lra).
  assert (He : 2 ^ e0 == 9007199254740992 * (2 ^ e * (1 # 2))).
  { unfold e. replace e0 with (e0 - 52 + 52)%Z at 1 by lia.
    rewrite Qpower_plus by discriminate.
    change (2 ^ 52) with 4503599627370496. ring. }
  assert (Hu : 2 ^ e * (1 # 2) <= q * ulpHalf) by (unfold ulpHalf; lra).
  set (d := q / 2 ^ e) in *.
  assert (Hr1 : (m - d) * 2 ^ e <= (1 # 2) * 2 ^ e)
    by (apply Qmult_le_compat_r; lra).
  assert (Hr2 : (d - m) * 2 ^ e <= (1 # 2) * 2 ^ e)
    by (apply Qmult_le_compat_r; lra).
  pose proof (Qred_correct (m * 2 ^ e)) as Hred.
  assert (Hfin : Qle_bool (2 ^ 1024) (Qred (m * 2 ^ e)) = false).
  { destruct (Qle_bool (2 ^ 1024) (Qred (m * 2 ^ e))) eqn:E; [|reflexivity].
    apply Qle_bool_iff in E. rewrite Hred in E.
    assert (q * ulpHalf < 2 ^ 1023) by (unfold ulpHalf; lra).
    assert (2 ^ 1024 == 2 * 2 ^ 1023) by reflexivity.
    lra. }
  rewrite Hfin. eexists. split; [reflexivity|]. rewrite Hred. split; lra.
Qed.

Lemma double_zero (q : Q) : q == 0 → Number.double q = Number.Finite 0.
Proof. intros H. unfold Number.double. apply Qeq_alt in H. now rewrite H. Qed.

Lemma double_bounds (q : Q) :
  2 ^ (-1022) <= q → q < 2 ^ 1023 →
  ∃ r, Number.double q = Number.Finite r
       ∧ q * (1 - ulpHalf) <= r ∧ r <= q * (1 + ulpHalf).
Proof.
  intros Hlo Hhi.
  destruct (nearestDouble_bounds q Hlo Hhi) as (r & Hr & Hb).
  exists r. split; [|exact Hb].
  unfold Number.double.
  assert (Hq : 0 < q) by (pose proof (two_power_pos (-1022)); lra).
  apply Qgt_alt in Hq. now rewrite Hq, Hr.
Qed.

Lemma normal_range (q : Q) :
  1 # 4294967296 <= q → q <= 9007199254740992 →
  2 ^ (-1022) <= q ∧ q < 2 ^ 1023.
Proof.
  intros Hlo Hhi.
  assert (H1 : 2 ^ (-1022) <= 1 # 4294967296).
  { apply Qle_bool_iff. vm_compute. reflexivity. }
  assert (H2 : 9007199254740992 < 2 ^ 1023).
  { apply Qlt_alt. vm_compute. reflexivity. }
  split; [eapply Qle_trans | eapply Qle_lt_trans]; eassumption.
Qed.

(** What [(c / n) * 100] is in doubles, and its rounding to tenths: within
    half a tenth of the exact share. *)
Lemma percent_rounding (c n : Z) :
  (0 <= c <= n)%Z → (0 < n < 4294967296)%Z →
  ∃ p, Number.times100 (Number.div c n) = Number.Finite p
       ∧ 0 <= p
       ∧ (2000 * c - n <= 2 * n * Number.roundTenths p <= 2000 * c + n)%Z.
Proof.
  intros Hc Hn. unfold Number.div.
  destruct (Z.eqb_spec n 0%Z) as [?|_]; [lia|].
  assert (HN : 0 < inject_Z n)
    by (change (inject_Z 0 < inject_Z n); rewrite <- Zlt_Qlt; lia).
  assert (HN' : inject_Z n < 4294967296)
    by (change (inject_Z n < inject_Z 4294967296); rewrite <- Zlt_Qlt; lia).
  destruct (Z.eq_dec c 0%Z) as [->|Hc0].
  - rewrite double_zero by (field; lra). cbn [Number.times100].
    rewrite double_zero by reflexivity.
    exists 0. split; [reflexivity|]. split; [lra|].
    change (Number.roundTenths 0) with 0%Z. lia.
  - assert (HC : 1 <= inject_Z c)
      by (change (inject_Z 1 <= inject_Z c); rewrite <- Zle_Qle; lia).
    assert (HCN : inject_Z c <= inject_Z n) by (rewrite <- Zle_Qle; lia).
    set (C := inject_Z c) in *. set (N := inject_Z n) in *.
    set (x := C / N).
    assert (Hx : x * N == C) by (unfold x; field; lra).
    assert (Hx1 : x <= 1).
    { unfold x. apply Qle_shift_div_r; lra. }
    assert (Hx0 : 1 # 4294967296 <= x).
    { unfold x. apply Qle_shift_div_l; lra. }
    destruct (normal_range x Hx0 ltac:(lra)) as [Hlo Hhi].
    destruct (double_bounds x Hlo Hhi) as (r & -> & Hr1 & Hr2).
    cbn [Number.times100]. unfold ulpHalf in *.
    assert (Hlo' : 1 # 4294967296 <= r * 100) by lra.
    destruct (normal_range (r * 100) Hlo' ltac:(lra)) as [Hlo2 Hhi2].
    destruct (double_bounds (r * 100) Hlo2 Hhi2) as (p & -> & Hp1 & Hp2).
    unfold ulpHalf in *.
    exists p. split; [reflexivity|]. split; [lra|].
    unfold Number.roundTenths.
    pose proof (Qfloor_le (p * 10 + (1 # 2))) as Ht1.
    pose proof (Qlt_floor (p * 10 + (1 # 2))) as Ht2.
    rewrite inject_Z_plus in Ht2. change (inject_Z 1) with 1 in Ht2.
    set (t := Qfloor (p * 10 + (1 # 2))) in *. set (T := inject_Z t) in *.
    assert (A1 : r * N <= x * (1 + (1 # 9007199254740992)) * N)
      by (apply Qmult_le_compat_r; lra).
    assert (A1' : x * (1 - (1 # 9007199254740992)) * N <= r * N)
      by (apply Qmult_le_compat_r; lra).
    assert (A2 : p * N <= r * 100 * (1 + (1 # 9007199254740992)) * N)
      by (apply Qmult_le_compat_r; lra).
    assert (A2' : r * 100 * (1 - (1 # 9007199254740992)) * N <= p * N)
      by (apply Qmult_le_compat_r; lra).
    assert (A3 : T * N <= (p * 10 + (1 # 2)) * N)
      by (apply Qmult_le_compat_r; lra).
    assert (A3' : (p * 10 + (1 # 2)) * N <= (T + 1) * N)
      by (apply Qmult_le_compat_r; lra).
    assert (Hup : 2 * (T * N) < 2000 * C + N + 1) by lra.
    assert (Hdn : 2000 * C - N - 1 < 2 * (T * N)) by lra.
    assert (Hup' : (2 * (t * n) < 2000 * c + n + 1)%Z).
    { rewrite Zlt_Qlt, !inject_Z_plus, !inject_Z_mult. exact Hup. }
    assert (Hdn' : (2000 * c - n - 1 < 2 * (t * n))%Z).
    { rewrite Zlt_Qlt. unfold Z.sub. rewrite !inject_Z_plus, !inject_Z_mult, !inject_Z_opp.
      fold C N T. change (inject_Z 1) with 1. change (inject_Z 2000) with 2000.
      change (inject_Z 2) with 2. lra. }
    lia.
Qed.


Close Scope Q_scope.

(** ** Rounding to one decimal *)

(** What the cards and the pie chart display for [c] records out of [n]:
    a number of tenths within half a tenth of the share. *)
Lemma percentage_display (c n : nat) :
  n ≠ 0 → (c ≤ n)%nat → arrayLength n →
  Number.toFixed1 (Number.times100 (Number.div (Z.of_nat c) (Z.of_nat n)))
  = Number.showTenths (shownTenths c n)
  ∧ nearShare (shownTenths c n) c n.
Proof.
  intros Hn Hc Hlen. unfold arrayLength in Hlen.
  destruct (percent_rounding (Z.of_nat c) (Z.of_nat n)) as (p & Hp & Hp0 & Hb);
    [lia | lia |].
  unfold shownTenths, nearShare. rewrite Hp. cbn [Number.toFixed1].
  assert (Hsign : Number.Qltb p 0 = false).
  { unfold Number.Qltb. destruct (Qcompare_spec p 0) as [H|H|H]; try reflexivity.
    exfalso. apply (Qlt_not_le _ _ H Hp0). }
  rewrite Hsign. split; [reflexivity | lia].
Qed.

(** On a tie the double decides: 23 records of 80 are 28.75 percent, and
    are shown as 28.7; 7 of 20 rating points are shown as 0.3. *)
Example ties_in_doubles :
  Number.toFixed1 (Number.times100 (Number.div 23 80)) = "28.7"
  ∧ percentTenths 23 80 = 288%Z
  ∧ Number.toFixed1 (Number.div 7 20) = "0.3"
  ∧ Number.toFixed1 (Number.div 61 20) = "3.0".
Proof. repeat split; vm_compute; reflexivity. Qed.

(** ** Objects as dictionaries *)

Section DictFacts.
Context {K V : Type} `{EqDecision K}.
Implicit Types (k : K) (v : V) (o : list (K * V)).

Lemma get_set_eq k v o : Obj.get k (Obj.set k v o) = Some v.
Proof.
  induction o as [|[k' v'] o IH]; simpl.
  - now rewrite decide_True.
  - destruct (decide (k = k')) as [->|Hne]; simpl.
    + now rewrite decide_True.
    + now rewrite decide_False.
Qed.

Lemma get_set_ne k k' v o : k ≠ k' → Obj.get k' (Obj.set k v o) = Obj.get k' o.
Proof.
  intros Hne. induction o as [|[k0 v0] o IH]; simpl.
  - rewrite decide_False; auto.
  - destruct (decide (k = k0)) as [->|Hk]; simpl.
    + rewrite !decide_False; auto.
    + destruct (decide (k' = k0)); auto.
Qed.

Lemma get_None k o : Obj.get k o = None ↔ k ∉ o.*1.
Proof.
  induction o as [|[k' v'] o IH]; simpl.
  - split; [intros _; apply not_elem_of_nil | done].
  - rewrite not_elem_of_cons. destruct (decide (k = k')) as [->|Hne].
    + split; [discriminate | intros [? _]; congruence].
    + rewrite IH. tauto.
Qed.

Lemma get_Some_elem_of k v o : Obj.get k o = Some v → (k, v) ∈ o.
Proof.
  induction o as [|[k' v'] o IH]; simpl; [done|].
  destruct (decide (k = k')) as [->|Hne].
  - intros [= ->]. apply elem_of_cons. now left.
  - intros Hg. apply elem_of_cons. right. auto.
Qed.

Lemma elem_of_get k v o : NoDup o.*1 → (k, v) ∈ o → Obj.get k o = Some v.
Proof.
  induction o as [|[k' v'] o IH]; simpl; intros Hnd Hin.
  - now apply elem_of_nil in Hin.
  - apply NoDup_cons in Hnd as [Hk' Hnd].
    apply elem_of_cons in Hin as [[= -> ->]|Hin].
    + now rewrite decide_True.
    + rewrite decide_False; auto.
      intros ->. apply Hk'. apply list_elem_of_fmap. now exists (k', v).
Qed.

Lemma keys_set k v o :
  (Obj.set k v o).*1
  = match Obj.get k o with Some _ => o.*1 | None => o.*1 ++ [k] end.
Proof.
  induction o as [|[k' v'] o IH]; cbn [Obj.set Obj.get]; [done|].
  destruct (decide (k = k')) as [->|Hne]; [done|].
  rewrite fmap_cons, IH. now destruct (Obj.get k o).
Qed.

Lemma NoDup_set k v o : NoDup o.*1 → NoDup (Obj.set k v o).*1.
Proof.
  intros Hnd. rewrite keys_set. destruct (Obj.get k o) eqn:E; [done|].
  apply NoDup_app. split; [done|]. split; [|apply NoDup_singleton].
  intros x Hx ->%list_elem_of_singleton. now apply get_None in E.
Qed.

Lemma entries_Permutation (arrayIndex : K → option Z) o :
  Obj.entries arrayIndex o ≡ₚ o.
Proof.
  unfold Obj.entries. rewrite sort_Permutation.
  induction o as [|p o IH]; [done|].
  rewrite !filter_cons. destruct (decide (is_Some (arrayIndex p.1))).
  - rewrite decide_False by tauto. simpl. now rewrite IH.
  - rewrite decide_True by tauto. rewrite <- Permutation_middle. now rewrite IH.
Qed.
End DictFacts.

(** ** Headline statistics *)

Import StatsCards.

Lemma countStatus_cons (label : string) (d : FreedomData) (data : list FreedomData) :
  countStatus label (d :: data)
  = (if decide (status d = label) then 1 else 0) + countStatus label data.
Proof.
  unfold countStatus. rewrite filter_cons.
  destruct (decide (status d = label)); reflexivity.
Qed.

Lemma countStatus_app (label : string) (l k : list FreedomData) :
  countStatus label (l ++ k) = countStatus label l + countStatus label k.
Proof. unfold countStatus. now rewrite filter_app, length_app. Qed.

Lemma countStatus_le (label : string) (data : list FreedomData) :
  (countStatus label data ≤ length data)%nat.
Proof. apply length_filter. Qed.

(** The three headline counts cover the collection exactly when every status
    is one of the three labels. *)
Lemma headline_counts (data : list FreedomData) :
  (countStatus "Libre" data + countStatus "Partiellement libre" data
    + countStatus "Pas libre" data ≤ length data)%nat
  ∧ (countStatus "Libre" data + countStatus "Partiellement libre" data
       + countStatus "Pas libre" data = length data
     ↔ Forall (λ d, canonicalStatus (status d)) data).
Proof.
  induction data as [|d data [IHle IHeq]].
  - split; [reflexivity|]. split; [constructor | reflexivity].
  - rewrite !countStatus_cons. cbn [length].
    rewrite Forall_cons. unfold canonicalStatus at 1.
    destruct (decide (status d = "Libre")) as [E1|E1];
      destruct (decide (status d = "Partiellement libre")) as [E2|E2];
      destruct (decide (status d = "Pas libre")) as [E3|E3];
      try (rewrite E1 in E2; discriminate E2);
      try (rewrite E1 in E3; discriminate E3);
      try (rewrite E2 in E3; discriminate E3);
      (split; [lia|]); rewrite <- IHeq;
      (split; [intros ?; split; [first [tauto | lia] | lia]
              | intros [? ?]; first [lia | tauto]]).
Qed.

Lemma stats_nonempty (data : list FreedomData) :
  data ≠ [] → ∃ s, stats data = Some s.
Proof.
  intros Hne. unfold stats.
  rewrite bool_decide_eq_false_2; [eauto|].
  destruct data; [done | discriminate].
Qed.

(** The scenario of ten records: 40.0, 30.0 and 30.0 percent. *)
Example ten_records_percentages :
  ∃ s, stats Sample.tenRecords = Some s
       ∧ freePercentage s = "40.0"
       ∧ partiallyFreePercentage s = "30.0"
       ∧ notFreePercentage s = "30.0".
Proof. eexists. split; [reflexivity|]. repeat split; vm_compute; reflexivity. Qed.

(** C4 as stated fails: with one free, one partly free and four not free
    records the three displayed percentages are 16.7, 16.7 and 66.7, which
    add up to 100.1. *)
Lemma headline_percentages_exceed_100 :
  ∃ s, stats Sample.sixths = Some s
       ∧ Forall (λ d, canonicalStatus (status d)) Sample.sixths
       ∧ freePercentage s = "16.7"
       ∧ partiallyFreePercentage s = "16.7"
       ∧ notFreePercentage s = "66.7"
       ∧ freePercentage s = Number.showTenths 167
       ∧ partiallyFreePercentage s = Number.showTenths 167
       ∧ notFreePercentage s = Number.showTenths 667
       ∧ ¬ (167 + 167 + 667 ≤ 1000)%Z.
Proof.
  eexists. split; [reflexivity|]. split.
  - unfold canonicalStatus. repeat constructor; cbn; tauto.
  - repeat split; try (vm_compute; reflexivity). lia.
Qed.

(** The displayed values can add up to 100.0 although a record has another
    status: 28.6 + 28.6 + 42.8 with 668 of 669 records. *)
Example displayed_100_with_other_status :
  ∃ s, stats Sample.almostAll = Some s
       ∧ freeCountries s + partiallyFreeCountries s + notFreeCountries s = 668
       ∧ totalCountries s = 669
       ∧ freePercentage s = "28.6"
       ∧ partiallyFreePercentage s = "28.6"
       ∧ notFreePercentage s = "42.8".
Proof. eexists. split; [reflexivity|]. repeat split; vm_compute; reflexivity. Qed.

(** C4, amended: for a non-empty collection the three headline counts are
    the numbers of records whose status equals the label; they add up to at
    most the number of records, and to exactly that number when and only when
    every status is one of the three labels; each displayed percentage is
    the double (count / total) * 100 shown with one decimal, a value within
    0.05 of the share of its count, and the three displayed values add up to
    at most 100.1. *)
Theorem headline_percentages (data : list FreedomData) :
  data ≠ [] → arrayLength (length data) →
  ∃ s, stats data = Some s
       ∧ totalCountries s = length data
       ∧ freeCountries s = length (filter (λ d, status d = "Libre") data)
       ∧ partiallyFreeCountries s
         = length (filter (λ d, status d = "Partiellement libre") data)
       ∧ notFreeCountries s = length (filter (λ d, status d = "Pas libre") data)
       ∧ (freeCountries s + partiallyFreeCountries s + notFreeCountries s
          ≤ length data)%nat
       ∧ (freeCountries s + partiallyFreeCountries s + notFreeCountries s
          = length data
          ↔ Forall (λ d, canonicalStatus (status d)) data)
       ∧ freePercentage s
         = Number.showTenths (shownTenths (freeCountries s) (length data))
       ∧ partiallyFreePercentage s
         = Number.showTenths (shownTenths (partiallyFreeCountries s) (length data))
       ∧ notFreePercentage s
         = Number.showTenths (shownTenths (notFreeCountries s) (length data))
       ∧ nearShare (shownTenths (freeCountries s) (length data))
                   (freeCountries s) (length data)
       ∧ nearShare (shownTenths (partiallyFreeCountries s) (length data))
                   (partiallyFreeCountries s) (length data)
       ∧ nearShare (shownTenths (notFreeCountries s) (length data))
                   (notFreeCountries s) (length data)
       ∧ (shownTenths (freeCountries s) (length data)
          + shownTenths (partiallyFreeCountries s) (length data)
          + shownTenths (notFreeCountries s) (length data) ≤ 1001)%Z.
Proof.
  intros Hne Harray.
  assert (Hlen : length data ≠ 0) by (destruct data; [done | discriminate]).
  unfold stats. rewrite bool_decide_eq_false_2 by exact Hlen.
  eexists. split; [reflexivity|]. cbn.
  destruct (headline_counts data) as [Hle Heq].
  split; [reflexivity|]. do 3 (split; [reflexivity|]).
  split; [exact Hle|]. split; [exact Heq|].
  destruct (percentage_display (countStatus "Libre" data) _ Hlen
              (countStatus_le _ _) Harray) as [E1 H1].
  destruct (percentage_display (countStatus "Partiellement libre" data) _ Hlen
              (countStatus_le _ _) Harray) as [E2 H2].
  destruct (percentage_display (countStatus "Pas libre" data) _ Hlen
              (countStatus_le _ _) Harray) as [E3 H3].
  do 3 (split; [assumption|]). do 3 (split; [assumption|]).
  unfold nearShare in H1, H2, H3. nia.
Qed.

Lemma headline_percentages_witness :
  ∃ s, stats Sample.sixths = Some s
       ∧ totalCountries s = 6
       ∧ freeCountries s = 1
       ∧ nearShare (shownTenths (freeCountries s) 6) (freeCountries s) 6
       ∧ (shownTenths (freeCountries s) 6
          + shownTenths (partiallyFreeCountries s) 6
          + shownTenths (notFreeCountries s) 6 ≤ 1001)%Z.
Proof.
  destruct (headline_percentages Sample.sixths)
    as (s & Hs & Ht & Hf & _ & _ & _ & _ & _ & _ & _ & Hnear & _ & _ & Hsum).
  - discriminate.
  - reflexivity.
  - exists s. split; [exact Hs|]. split; [exact Ht|]. split; [exact Hf|].
    split; [exact Hnear | exact Hsum].
Defined.

(** ** Status distribution *)

Import DataVisualization.

Lemma totalOf_set (k : string) (v : tally) (o : list (string * tally)) :
  (totalOf (Obj.set k v o) + from_option weight 0 (Obj.get k o)
   = totalOf o + weight v)%nat.
Proof.
  unfold totalOf. induction o as [|[k' v'] o IH]; cbn [Obj.set Obj.get].
  - cbn. lia.
  - destruct (decide (k = k')) as [->|Hne]; cbn in *; lia.
Qed.

Lemma totalOf_Permutation (o o' : list (string * tally)) :
  o ≡ₚ o' → totalOf o = totalOf o'.
Proof. intros H. unfold totalOf. now rewrite H. Qed.

Lemma countStatus_snoc (label : string) (data : list FreedomData) (d : FreedomData) :
  countStatus label (data ++ [d])
  = (countStatus label data + if decide (status d = label) then 1 else 0)%nat.
Proof.
  rewrite countStatus_app, countStatus_cons.
  change (countStatus label []) with 0%nat.
  destruct (decide (status d = label)); lia.
Qed.

Lemma countStatus_zero (label : string) (data : list FreedomData) :
  countStatus label data = 0%nat ↔ label ∉ status <$> data.
Proof.
  induction data as [|d data IH].
  - split; [intros _; apply not_elem_of_nil | reflexivity].
  - rewrite countStatus_cons, fmap_cons, not_elem_of_cons.
    destruct (decide (status d = label)) as [E|E].
    + split; [lia | intros [? _]; congruence].
    + rewrite <- IH. split; [intros; split; [congruence | lia] | intros [_ ?]; lia].
Qed.

Lemma increment_absent (acc : list (string * tally)) (key : string) :
  key ∉ Obj.objectPrototype → Obj.get key acc = None →
  increment acc key = Obj.set key (Count 1) acc.
Proof.
  intros Hkey Hget. unfold increment. rewrite Hget.
  rewrite decide_False.
  - now rewrite decide_False.
  - intros ->. apply Hkey. unfold Obj.objectPrototype. set_solver.
Qed.

Lemma increment_present (acc : list (string * tally)) (key : string) (n : nat) :
  Obj.get key acc = Some (Count n) →
  increment acc key = Obj.set key (Count (n + 1)) acc.
Proof. intros Hget. unfold increment. now rewrite Hget. Qed.

Lemma increment_keys (acc : list (string * tally)) (key : string) :
  NoDup acc.*1 → NoDup (increment acc key).*1.
Proof. intros H. unfold increment. repeat case_match; auto using NoDup_set. Qed.

Lemma tallies_NoDup (data : list FreedomData) : NoDup (distributionBy status data).*1.
Proof.
  unfold distributionBy. induction data as [|d data IH] using rev_ind.
  - constructor.
  - rewrite foldl_snoc. now apply increment_keys.
Qed.

(** Each status that occurs has a slot with the number of its records. *)
Lemma tallies_get (data : list FreedomData) (s : string) :
  Forall (λ d, status d ∉ Obj.objectPrototype) data →
  Obj.get s (distributionBy status data)
  = if decide (countStatus s data = 0%nat) then None
    else Some (Count (countStatus s data)).
Proof.
  revert s. induction data as [|d data IH] using rev_ind; intros s Hok.
  - reflexivity.
  - rewrite Forall_app, Forall_singleton in Hok. destruct Hok as [Hok Hd].
    unfold distributionBy in *. rewrite foldl_snoc, countStatus_snoc.
    pose proof (IH (status d) Hok) as Hget.
    destruct (decide (countStatus (status d) data = 0%nat)) as [E|E].
    + rewrite increment_absent by assumption.
      destruct (decide (status d = s)) as [<-|Hne].
      * rewrite get_set_eq, E. reflexivity.
      * rewrite get_set_ne, Nat.add_0_r by assumption. now apply IH.
    + rewrite (increment_present _ _ _ Hget).
      destruct (decide (status d = s)) as [<-|Hne].
      * rewrite get_set_eq, decide_False by lia. reflexivity.
      * rewrite get_set_ne, Nat.add_0_r by assumption. now apply IH.
Qed.

Lemma tallies_total (data : list FreedomData) :
  Forall (λ d, status d ∉ Obj.objectPrototype) data →
  totalOf (distributionBy status data) = length data.
Proof.
  induction data as [|d data IH] using rev_ind; intros Hok.
  - reflexivity.
  - rewrite Forall_app, Forall_singleton in Hok. destruct Hok as [Hok Hd].
    specialize (IH Hok). rewrite length_app. cbn [length].
    pose proof (tallies_get data (status d) Hok) as Hget.
    unfold distributionBy in *. rewrite foldl_snoc.
    destruct (decide (countStatus (status d) data = 0%nat)) as [E|E].
    + rewrite increment_absent by assumption.
      pose proof (totalOf_set (status d) (Count 1)
                    (foldl (λ acc item, increment acc (status item)) [] data)) as H.
      rewrite Hget in H. cbn in H. lia.
    + rewrite (increment_present _ _ _ Hget).
      pose proof (totalOf_set (status d) (Count (countStatus (status d) data + 1))
                    (foldl (λ acc item, increment acc (status item)) [] data)) as H.
      rewrite Hget in H. cbn in H. lia.
Qed.

(** Rounding each share moves the sum by at most half a tenth per entry. *)
Lemma rounded_sum_bounds (n : nat) (es : list (string * tally)) :
  n ≠ 0%nat → arrayLength n → Forall (λ p, (weight p.2 ≤ n)%nat) es →
  let total := sumZ ((λ p, shownTenths (weight p.2) n) <$> es) in
  (2000 * Z.of_nat (totalOf es) - Z.of_nat n * Z.of_nat (length es)
     ≤ 2 * Z.of_nat n * total
   ∧ 2 * Z.of_nat n * total
     ≤ 2000 * Z.of_nat (totalOf es) + Z.of_nat n * Z.of_nat (length es))%Z.
Proof.
  intros Hn Harray Hle. induction Hle as [|[k v] es Hv _ IH]; cbn zeta in *.
  - cbn. lia.
  - change (totalOf ((k, v) :: es)) with (weight v + totalOf es)%nat.
    change (sumZ ((λ p, shownTenths (weight p.2) n) <$> (k, v) :: es))
      with (shownTenths (weight v) n
            + sumZ ((λ p, shownTenths (weight p.2) n) <$> es))%Z.
    cbn [length].
    destruct (percentage_display (weight v) n Hn Hv Harray) as [_ Hnear].
    unfold nearShare in Hnear. lia.
Qed.

Lemma tallies_elem_of (data : list FreedomData) (k : string) (v : tally) :
  Forall (λ d, status d ∉ Obj.objectPrototype) data →
  (k, v) ∈ Obj.entries Obj.indexOfString (distributionBy status data) →
  countStatus k data ≠ 0%nat ∧ v = Count (countStatus k data).
Proof.
  intros Hok Hin. rewrite entries_Permutation in Hin.
  apply (elem_of_get _ _ _ (tallies_NoDup data)) in Hin.
  rewrite tallies_get in Hin by assumption.
  destruct (decide (countStatus k data = 0%nat)); [discriminate|].
  split; [assumption | congruence].
Qed.

(** C8 as stated fails: six records with six different status texts give six
    slices of 16.7 percent, which add up to 100.2. *)
Lemma six_slices_exceed_tolerance :
  Status.percentage <$> statusDistribution Sample.sixStatuses
  = [ "16.7"; "16.7"; "16.7"; "16.7"; "16.7"; "16.7" ]
  ∧ Number.showTenths 167 = "16.7"
  ∧ ¬ (6 * 167 - 1000 ≤ 1)%Z.
Proof. split; [vm_compute; reflexivity|]. split; [reflexivity | lia]. Qed.

(** C8, amended: for a non-empty collection in which no status is a name
    that objects inherit, the status distribution has exactly one slice per
    distinct status, each with the number of records of that status and with
    the double (count / total) * 100 shown with one decimal, a value within
    0.05 of the share of the status, and the displayed shares add up to
    100.0 within 0.05 per slice. *)
Theorem statusDistribution_shares (data : list FreedomData) :
  data ≠ [] → arrayLength (length data) →
  Forall (λ d, status d ∉ Obj.objectPrototype) data →
  let slices := statusDistribution data in
  let share (s : string) := shownTenths (countStatus s data) (length data) in
  NoDup (Status.name <$> slices)
  ∧ (∀ s, s ∈ Status.name <$> slices ↔ s ∈ status <$> data)
  ∧ Forall (λ e, Status.value e = Count (countStatus (Status.name e) data)
                 ∧ Status.percentage e = Number.showTenths (share (Status.name e))
                 ∧ nearShare (share (Status.name e))
                             (countStatus (Status.name e) data) (length data))
           slices
  ∧ (2000 - Z.of_nat (length slices)
     ≤ 2 * sumZ ((λ e, share (Status.name e)) <$> slices)
     ≤ 2000 + Z.of_nat (length slices))%Z.
Proof.
  intros Hne Harray Hok slices share.
  assert (Hlen : length data ≠ 0%nat) by (destruct data; [done | discriminate]).
  set (es := Obj.entries Obj.indexOfString (distributionBy status data)).
  set (mk := λ '(name, value),
         {| Status.name := name; Status.value := value;
            Status.percentage :=
              Number.toFixed1 (Number.times100 (tallyDiv value (length data))) |}).
  assert (Hslices : slices = mk <$> es) by reflexivity.
  assert (Hnames : Status.name <$> slices = es.*1).
  { rewrite Hslices, <- list_fmap_compose. apply list_fmap_ext.
    intros i [k v] _. reflexivity. }
  assert (Hperm : es ≡ₚ distributionBy status data) by apply entries_Permutation.
  split; [|split; [|split]].
  - rewrite Hnames, Hperm. apply tallies_NoDup.
  - intros s. rewrite Hnames, Hperm.
    pose proof (countStatus_zero s data) as Hzero.
    pose proof (get_None s (distributionBy status data)) as Hnone.
    rewrite tallies_get in Hnone by assumption.
    destruct (decide (countStatus s data = 0%nat)) as [E|E].
    + split; intros Hin; exfalso; [now apply Hnone in Hin | now apply Hzero in Hin].
    + destruct (decide (s ∈ (distributionBy status data).*1)) as [Hk|Hk];
        [|apply Hnone in Hk; discriminate].
      destruct (decide (s ∈ status <$> data)) as [Hs|Hs];
        [tauto | apply Hzero in Hs; contradiction].
  - rewrite Hslices, Forall_fmap. apply Forall_forall. intros [k v] Hin.
    destruct (tallies_elem_of data k v Hok Hin) as [_ ->]. cbn. split; [reflexivity|].
    apply percentage_display; [assumption | apply countStatus_le | assumption].
  - assert (Hsum : (λ e, share (Status.name e)) <$> slices
                   = (λ p, shownTenths (weight p.2) (length data)) <$> es).
    { rewrite Hslices, <- list_fmap_compose. apply Forall_fmap_ext.
      apply Forall_forall. intros [k v] Hin.
      destruct (tallies_elem_of data k v Hok Hin) as [_ ->]. reflexivity. }
    rewrite Hsum.
    assert (Hweights : Forall (λ p, (weight p.2 ≤ length data)%nat) es).
    { apply Forall_forall. intros [k v] Hin.
      destruct (tallies_elem_of data k v Hok Hin) as [_ ->]. cbn.
      apply countStatus_le. }
    pose proof (rounded_sum_bounds (length data) es Hlen Harray Hweights) as Hb.
    cbn zeta in Hb.
    rewrite (totalOf_Permutation _ _ Hperm), tallies_total in Hb by assumption.
    replace (length slices) with (length es) by (rewrite Hslices; now rewrite length_fmap).
    nia.
Qed.

Lemma statusDistribution_shares_witness :
  let slices := statusDistribution Sample.sixStatuses in
  NoDup (Status.name <$> slices)
  ∧ (2000 - 6
     ≤ 2 * sumZ ((λ e, shownTenths
                         (countStatus (Status.name e) Sample.sixStatuses) 6)
                 <$> slices)
     ≤ 2000 + 6)%Z.
Proof.
  destruct (statusDistribution_shares Sample.sixStatuses) as (Hnd & _ & _ & Hsum).
  - discriminate.
  - reflexivity.
  - apply (bool_decide_unpack _). vm_compute. exact I.
  - split; [exact Hnd | exact Hsum].
Defined.

(** Why the inherited names are set apart: a status [__proto__] gets no slice,
    and a status [constructor] gets a slice without a count. *)
Example inherited_status_names :
  statusDistribution
    [ Sample.record 2020 "__proto__" 0 0; Sample.record 2020 "constructor" 0 0;
      Sample.record 2020 "Libre" 1 1 ]
  = [ {| Status.name := "constructor"; Status.value := Text;
         Status.percentage := "NaN" |};
      {| Status.name := "Libre"; Status.value := Count 1;
         Status.percentage := "33.3" |} ].
Proof. vm_compute. reflexivity. Qed.

(** ** Yearly series *)

Lemma sumOf_snoc (f : FreedomData → Z) (data : list FreedomData) (d : FreedomData) :
  sumOf f (data ++ [d]) = (sumOf f data + f d)%Z.
Proof. unfold sumOf. now rewrite foldl_snoc. Qed.

Lemma rowsOf_snoc (y : Z) (data : list FreedomData) (d : FreedomData) :
  rowsOf y (data ++ [d])
  = if decide (Dashboard.year d = y) then rowsOf y data ++ [d] else rowsOf y data.
Proof.
  unfold rowsOf. rewrite filter_app, filter_cons, filter_nil.
  destruct (decide (Dashboard.year d = y)); [reflexivity | apply app_nil_r].
Qed.

Lemma rowsOf_nil (y : Z) (data : list FreedomData) :
  y ∉ Dashboard.year <$> data → rowsOf y data = [].
Proof.
  unfold rowsOf. induction data as [|d data IH]; [reflexivity|].
  rewrite fmap_cons, not_elem_of_cons. intros [Hne Hin].
  rewrite filter_cons, decide_False by congruence. now apply IH.
Qed.

Lemma summary_snoc (data : list FreedomData) (item : FreedomData) :
  summary (Dashboard.year item) (data ++ [item])
  = countItem (summary (Dashboard.year item) data) item.
Proof.
  unfold countItem, summary. rewrite rowsOf_snoc, decide_True by reflexivity.
  cbn [Yearly.year Yearly.totalCountries Yearly.avgPolitical Yearly.avgCivil
       Yearly.libre Yearly.partLibre Yearly.pasLibre].
  rewrite !sumOf_snoc, !countStatus_snoc, length_app, filter_app, length_app.
  rewrite filter_cons, filter_nil. unfold otherStatus at 2.
  f_equal.
  - cbn [length]. lia.
  - destruct (decide (status item = "Libre")) as [E|E].
    + now rewrite bool_decide_eq_true_2.
    + rewrite bool_decide_eq_false_2 by assumption. lia.
  - destruct (decide (status item = "Partiellement libre")) as [E|E].
    + rewrite bool_decide_eq_false_2 by (rewrite E; discriminate).
      now rewrite bool_decide_eq_true_2.
    + rewrite (bool_decide_eq_false_2 (status item = "Partiellement libre"))
        by assumption.
      destruct (bool_decide (status item = "Libre")); lia.
  - destruct (decide (status item = "Libre")) as [E|E].
    + rewrite bool_decide_eq_true_2 by assumption.
      rewrite decide_False by (intros [? ?]; congruence). cbn [length]. lia.
    + rewrite bool_decide_eq_false_2 by assumption.
      destruct (decide (status item = "Partiellement libre")) as [E'|E'].
      * rewrite bool_decide_eq_true_2 by assumption.
        rewrite decide_False by (intros [? ?]; congruence). cbn [length]. lia.
      * rewrite bool_decide_eq_false_2 by assumption.
        rewrite decide_True by (split; assumption). reflexivity.
Qed.

Lemma summary_other (y : Z) (data : list FreedomData) (item : FreedomData) :
  Dashboard.year item ≠ y → summary y (data ++ [item]) = summary y data.
Proof. intros Hne. unfold summary. now rewrite rowsOf_snoc, decide_False. Qed.

Lemma yearData_NoDup (data : list FreedomData) : NoDup (yearData data).*1.
Proof.
  unfold yearData. induction data as [|d data IH] using rev_ind.
  - constructor.
  - rewrite foldl_snoc. unfold DataVisualization.addYear at 1. now apply NoDup_set.
Qed.

(** The dictionary holds, for each year that occurs, the summary of its rows. *)
Lemma yearData_get (data : list FreedomData) (y : Z) :
  Obj.get y (yearData data)
  = if decide (y ∈ Dashboard.year <$> data) then Some (summary y data) else None.
Proof.
  revert y. induction data as [|d data IH] using rev_ind; intros y.
  - reflexivity.
  - unfold yearData in *. rewrite foldl_snoc. unfold DataVisualization.addYear at 1.
    assert (Hentry :
      default (newYear (Dashboard.year d))
              (Obj.get (Dashboard.year d) (foldl DataVisualization.addYear [] data))
      = summary (Dashboard.year d) data).
    { rewrite IH.
      destruct (decide (Dashboard.year d ∈ Dashboard.year <$> data)) as [Hin|Hin].
      - reflexivity.
      - cbn [default]. unfold summary, newYear. now rewrite rowsOf_nil. }
    rewrite Hentry, <- summary_snoc.
    assert (Hin : ∀ z, z ∈ Dashboard.year <$> data ++ [d]
                       ↔ z ∈ Dashboard.year <$> data ∨ z = Dashboard.year d).
    { intros z. rewrite fmap_app, elem_of_app. cbn [fmap list_fmap].
      now rewrite list_elem_of_singleton. }
    destruct (decide (Dashboard.year d = y)) as [<-|Hne].
    + rewrite get_set_eq, decide_True; [reflexivity|]. apply Hin. now right.
    + rewrite get_set_ne, IH by assumption. rewrite summary_other by assumption.
      destruct (decide (y ∈ Dashboard.year <$> data)) as [Hy|Hy].
      * rewrite decide_True; [reflexivity|]. apply Hin. now left.
      * rewrite decide_False; [reflexivity|].
        rewrite Hin. intros [?|?]; [contradiction | congruence].
Qed.

Lemma yearData_elem_of (data : list FreedomData) (y : Z) (e : Yearly.Point Z) :
  (y, e) ∈ yearData data → y ∈ Dashboard.year <$> data ∧ e = summary y data.
Proof.
  intros Hin. apply (elem_of_get _ _ _ (yearData_NoDup data)) in Hin.
  rewrite yearData_get in Hin.
  destruct (decide (y ∈ Dashboard.year <$> data)); [|discriminate].
  split; [assumption | congruence].
Qed.

Lemma sorted_strict {A : Type} (key : A → Z) (l : list A) :
  StronglySorted (λ a b, (key a ≤ key b)%Z) l →
  NoDup (key <$> l) →
  StronglySorted (λ a b, (key a < key b)%Z) l.
Proof.
  induction 1 as [|x l Hs IH Hx]; intros Hnd; [constructor|].
  rewrite fmap_cons in Hnd. apply NoDup_cons in Hnd as [Hnotin Hnd].
  constructor; [now apply IH|].
  apply Forall_forall. intros z Hz.
  rewrite Forall_forall in Hx. specialize (Hx z Hz).
  assert (key x ≠ key z).
  { intros E. apply Hnotin. rewrite E. now apply list_elem_of_fmap_2. }
  lia.
Qed.

(** The years of the series are the keys of the dictionary. *)
Lemma yearlyTrends_years (data : list FreedomData) :
  Yearly.year <$> yearlyTrends data ≡ₚ (yearData data).*1.
Proof.
  unfold yearlyTrends, Obj.values. rewrite sort_Permutation.
  rewrite <- (entries_Permutation Obj.indexOfNumber (yearData data)) at 2.
  rewrite <- !list_fmap_compose.
  assert (Hext : (Yearly.year ∘ finish ∘ snd)
                   <$> Obj.entries Obj.indexOfNumber (yearData data)
                 = fst <$> Obj.entries Obj.indexOfNumber (yearData data)).
  { apply Forall_fmap_ext, Forall_forall. intros [y e] Hin.
    rewrite entries_Permutation in Hin.
    apply yearData_elem_of in Hin as [_ ->]. reflexivity. }
  now rewrite Hext.
Qed.

(** C5 as stated fails: a record whose status is none of the three labels is
    counted in [pasLibre], the count of the not free records, and the entries
    have no fourth count. *)
Lemma other_status_counted_as_not_free :
  yearlyTrends Sample.unspecified
  = [ {| Yearly.year := 2020; Yearly.totalCountries := 1;
         Yearly.avgPolitical := "0.0"; Yearly.avgCivil := "0.0";
         Yearly.libre := 0; Yearly.partLibre := 0; Yearly.pasLibre := 1 |} ]
  ∧ countStatus "Pas libre" Sample.unspecified = 0.
Proof. split; vm_compute; reflexivity. Qed.

(** The series as the code builds it: one entry per distinct year, in
    ascending order; [pasLibre] counts every record of the year whose status
    is neither Libre nor Partiellement libre. *)
Lemma yearlyTrends_entries (data : list FreedomData) :
  let series := yearlyTrends data in
  StronglySorted (λ a b, (Yearly.year a < Yearly.year b)%Z) series
  ∧ (∀ y, y ∈ Yearly.year <$> series ↔ y ∈ Dashboard.year <$> data)
  ∧ Forall (λ e, e = finish (summary (Yearly.year e) data)) series.
Proof.
  intros series. split; [|split].
  - apply sorted_strict.
    + apply (sort_sorted Yearly.year).
    + unfold series. rewrite yearlyTrends_years. apply yearData_NoDup.
  - intros y. unfold series. rewrite yearlyTrends_years.
    pose proof (get_None y (yearData data)) as Hnone.
    rewrite yearData_get in Hnone.
    destruct (decide (y ∈ Dashboard.year <$> data)) as [Hy|Hy].
    + split; [intros _; assumption|]. intros _.
      destruct (decide (y ∈ (yearData data).*1)) as [Hk|Hk]; [assumption|].
      apply Hnone in Hk. discriminate.
    + split; [|intros; contradiction]. intros Hk. exfalso.
      assert (y ∉ (yearData data).*1) by now apply Hnone. contradiction.
  - apply Forall_forall. intros e He.
    unfold series, yearlyTrends in He. rewrite sort_Permutation in He.
    apply list_elem_of_fmap in He as (item & -> & Hitem).
    unfold Obj.values in Hitem.
    apply list_elem_of_fmap in Hitem as ([y item'] & -> & Hin).
    rewrite entries_Permutation in Hin.
    apply yearData_elem_of in Hin as [_ ->].
    reflexivity.
Qed.

(** Among records of the three labels, the others are the not free ones. *)
Lemma other_is_not_free (rows : list FreedomData) :
  Forall (λ d, canonicalStatus (status d)) rows →
  length (filter otherStatus rows)
  = length (filter (λ d, status d = "Pas libre") rows).
Proof.
  induction 1 as [|d rows Hd _ IH]; [reflexivity|].
  rewrite !filter_cons. unfold otherStatus at 1.
  destruct Hd as [E|[E|E]].
  - rewrite decide_False by (intros [? ?]; congruence).
    rewrite decide_False by (intros E'; rewrite E in E'; discriminate E').
    exact IH.
  - rewrite decide_False by (intros [? ?]; congruence).
    rewrite decide_False by (intros E'; rewrite E in E'; discriminate E').
    exact IH.
  - rewrite decide_True
      by (split; intros E'; rewrite E in E'; discriminate E').
    rewrite decide_True by assumption. cbn [length]. now rewrite IH.
Qed.

(** C5, amended: for ratings whose sums doubles hold exactly, the yearly
    series has one entry per distinct year, in ascending order of the year;
    an entry carries the number of records of its year, the averages of
    their two ratings as the code displays them (the double sum / count
    shown with one decimal; the sums are not kept) and three counts, without
    a count for other statuses: the records whose status is Libre, those
    whose status is Partiellement libre, and, when every record of the year
    has one of the three labels, those whose status is Pas libre. *)
Theorem yearlyTrends_series (data : list FreedomData) :
  exactSums data →
  let series := yearlyTrends data in
  StronglySorted (λ a b, (Yearly.year a < Yearly.year b)%Z) series
  ∧ (∀ y, y ∈ Yearly.year <$> series ↔ y ∈ Dashboard.year <$> data)
  ∧ Forall
      (λ e,
         let rows := filter (λ d, Dashboard.year d = Yearly.year e) data in
         let n := Z.of_nat (length rows) in
         Yearly.totalCountries e = n
         ∧ Yearly.avgPolitical e
           = Number.toFixed1 (Number.div (sumOf politicalRights rows) n)
         ∧ Yearly.avgCivil e
           = Number.toFixed1 (Number.div (sumOf civilLiberties rows) n)
         ∧ Yearly.libre e = length (filter (λ d, status d = "Libre") rows)
         ∧ Yearly.partLibre e
           = length (filter (λ d, status d = "Partiellement libre") rows)
         ∧ (Forall (λ d, canonicalStatus (status d)) rows →
            Yearly.pasLibre e
            = length (filter (λ d, status d = "Pas libre") rows)))
      series.
Proof.
  intros _ series.
  destruct (yearlyTrends_entries data) as (Hsorted & Hyears & Hentries).
  split; [exact Hsorted|]. split; [exact Hyears|].
  eapply Forall_impl; [exact Hentries|]. cbn beta.
  intros e ->. cbn. do 5 (split; [reflexivity|]).
  intros Hall. now apply other_is_not_free.
Qed.

Lemma yearlyTrends_series_witness :
  let data := [ Sample.record 2021 "Libre" 1 2; Sample.record 2020 "Pas libre" 6 7;
                Sample.record 2021 "Partiellement libre" 3 4 ] in
  let series := yearlyTrends data in
  StronglySorted (λ a b, (Yearly.year a < Yearly.year b)%Z) series
  ∧ (∀ y, y ∈ Yearly.year <$> series ↔ y ∈ Dashboard.year <$> data)
  ∧ Forall
      (λ e,
         let rows := filter (λ d, Dashboard.year d = Yearly.year e) data in
         let n := Z.of_nat (length rows) in
         Yearly.totalCountries e = n
         ∧ Yearly.avgPolitical e
           = Number.toFixed1 (Number.div (sumOf politicalRights rows) n)
         ∧ Yearly.avgCivil e
           = Number.toFixed1 (Number.div (sumOf civilLiberties rows) n)
         ∧ Yearly.libre e = length (filter (λ d, status d = "Libre") rows)
         ∧ Yearly.partLibre e
           = length (filter (λ d, status d = "Partiellement libre") rows)
         ∧ (Forall (λ d, canonicalStatus (status d)) rows →
            Yearly.pasLibre e
            = length (filter (λ d, status d = "Pas libre") rows)))
      series.
Proof.
  intros data. apply (yearlyTrends_series data).
  apply (bool_decide_unpack _). vm_compute. exact I.
Defined.

(** ** Trend: the scenarios and the case of a single year *)

Example trend_improving :
  trendOf [ Sample.record 2019 "Libre" 1 2; Sample.record 2021 "Libre" 2 3 ]
  = improving.
Proof. vm_compute. reflexivity. Qed.

Example trend_declining :
  trendOf [ Sample.record 2019 "Libre" 2 3; Sample.record 2021 "Libre" 1 2 ]
  = declining.
Proof. vm_compute. reflexivity. Qed.

Example trend_stable :
  trendOf [ Sample.record 2019 "Libre" 2 3; Sample.record 2021 "Libre" 3 2 ]
  = stable.
Proof. vm_compute. reflexivity. Qed.

(** The comparison is one of doubles: with averages of 1/3 and 5/6, which
    are 0.5 apart, the double 5/6 is greater than the double 1/3 + 0.5. *)
Example trend_boundary_in_doubles :
  trendOf (replicate 1 (Sample.record 2019 "Libre" 1 0)
           ++ replicate 2 (Sample.record 2019 "Libre" 0 0)
           ++ replicate 5 (Sample.record 2021 "Libre" 1 0)
           ++ replicate 1 (Sample.record 2021 "Libre" 0 0))
  = improving.
Proof. vm_compute. reflexivity. Qed.

Lemma yearlyData_NoDup (data : list FreedomData) : NoDup (yearlyData data).*1.
Proof.
  unfold yearlyData. induction data as [|d data IH] using rev_ind.
  - constructor.
  - rewrite foldl_snoc. unfold StatsCards.addYear at 1. now apply NoDup_set.
Qed.

Lemma yearlyData_keys (data : list FreedomData) (y : Z) :
  y ∈ (yearlyData data).*1 → y ∈ Dashboard.year <$> data.
Proof.
  unfold yearlyData. induction data as [|d data IH] using rev_ind.
  - intros H. now apply elem_of_nil in H.
  - rewrite foldl_snoc. unfold StatsCards.addYear at 1. rewrite keys_set.
    rewrite fmap_app, elem_of_app. cbn [fmap list_fmap].
    destruct (Obj.get _ _); [intros H; left; now apply IH|].
    rewrite elem_of_app. intros [H|H]; [left; now apply IH | now right].
Qed.

(** With a single year in the collection the trend is [stable]. *)
Lemma trend_single_year (data : list FreedomData) (y : Z) :
  Forall (λ d, Dashboard.year d = y) data → trendOf data = stable.
Proof.
  intros Hall. unfold trendOf.
  rewrite bool_decide_eq_false_2; [reflexivity|].
  unfold years, Obj.keys. rewrite sort_length, length_fmap.
  rewrite (Permutation_length (entries_Permutation _ _)).
  rewrite <- (length_fmap fst).
  pose proof (yearlyData_NoDup data) as Hnd.
  assert (Hkeys : ∀ k, k ∈ (yearlyData data).*1 → k = y).
  { intros k Hk. apply yearlyData_keys in Hk.
    apply list_elem_of_fmap in Hk as (d & -> & Hd).
    rewrite Forall_forall in Hall. now apply Hall. }
  destruct ((yearlyData data).*1) as [|a [|b l]]; cbn [length]; [lia | lia |].
  exfalso. apply NoDup_cons in Hnd as [Ha _]. apply Ha.
  rewrite (Hkeys a), (Hkeys b).
  - apply elem_of_cons. now left.
  - apply elem_of_cons. right. apply elem_of_cons. now left.
  - apply elem_of_cons. now left.
Qed.

Lemma place_ext {A : Type} (f g : A → A → Z) (x : A) (l : list A) :
  (∀ y, y ∈ l → (0 <? f x y)%Z = (0 <? g x y)%Z) →
  Arr.place f x l = Arr.place g x l.
Proof.
  induction l as [|y l IH]; intros H; [reflexivity|]. cbn [Arr.place].
  rewrite (H y) by (apply elem_of_cons; now left).
  rewrite IH; [reflexivity|]. intros z Hz. apply H. apply elem_of_cons. now right.
Qed.

Lemma sort_ext {A : Type} (f g : A → A → Z) (l : list A) :
  (∀ x y, x ∈ l → y ∈ l → (0 <? f x y)%Z = (0 <? g x y)%Z) →
  Arr.sort f l = Arr.sort g l.
Proof.
  induction l as [|x l IH]; intros H; [reflexivity|].
  change (Arr.place f x (Arr.sort f l) = Arr.place g x (Arr.sort g l)).
  rewrite IH.
  - apply place_ext. intros y Hy. apply H.
    + apply elem_of_cons. now left.
    + apply elem_of_cons. right. now apply sort_elem_of in Hy.
  - intros a b Ha Hb. apply H; apply elem_of_cons; now right.
Qed.

Lemma sorted_head (l : list Z) (x : Z) :
  StronglySorted Z.le l → x ∈ l → (∀ y, y ∈ l → (x ≤ y)%Z) → head l = Some x.
Proof.
  intros Hs Hx Hmin. destruct l as [|a l]; [now apply elem_of_nil in Hx|].
  cbn. f_equal. apply StronglySorted_inv in Hs as [_ Ha].
  assert (x ≤ a)%Z by (apply Hmin, elem_of_cons; now left).
  apply elem_of_cons in Hx as [->|Hx]; [reflexivity|].
  rewrite Forall_forall in Ha. specialize (Ha x Hx). lia.
Qed.

Lemma sorted_last (l : list Z) (x : Z) :
  StronglySorted Z.le l → x ∈ l → (∀ y, y ∈ l → (y ≤ x)%Z) → last l = Some x.
Proof.
  induction 1 as [|a l Hs IH Ha]; intros Hx Hmax; [now apply elem_of_nil in Hx|].
  destruct l as [|b l]; cbn [last].
  - apply elem_of_cons in Hx as [->|Hx]; [reflexivity | now apply elem_of_nil in Hx].
  - apply IH.
    + apply elem_of_cons in Hx as [->|Hx]; [|assumption].
      apply Forall_cons in Ha as [Hab _].
      assert (b ≤ a)%Z by (apply Hmax; apply elem_of_cons; right; apply elem_of_cons; now left).
      replace a with b by lia. apply elem_of_cons. now left.
    + intros y Hy. apply Hmax. apply elem_of_cons. now right.
Qed.

Lemma yearlyData_get (data : list FreedomData) (y : Z) :
  Obj.get y (yearlyData data)
  = if decide (y ∈ Dashboard.year <$> data) then Some (totals y data) else None.
Proof.
  revert y. induction data as [|d data IH] using rev_ind; intros y.
  - reflexivity.
  - unfold yearlyData in *. rewrite foldl_snoc. unfold StatsCards.addYear at 1.
    assert (Hentry :
      default StatsCards.newYear (Obj.get (Dashboard.year d) (foldl StatsCards.addYear [] data))
      = totals (Dashboard.year d) data).
    { rewrite IH.
      destruct (decide (Dashboard.year d ∈ Dashboard.year <$> data)) as [Hin|Hin].
      - reflexivity.
      - cbn [default]. unfold totals, StatsCards.newYear. now rewrite rowsOf_nil. }
    rewrite Hentry.
    assert (Hin : ∀ z, z ∈ Dashboard.year <$> data ++ [d]
                       ↔ z ∈ Dashboard.year <$> data ∨ z = Dashboard.year d).
    { intros z. rewrite fmap_app, elem_of_app. cbn [fmap list_fmap].
      now rewrite list_elem_of_singleton. }
    destruct (decide (Dashboard.year d = y)) as [<-|Hne].
    + rewrite get_set_eq, decide_True by (apply Hin; now right).
      f_equal. unfold StatsCards.countItem, totals.
      rewrite rowsOf_snoc, decide_True by reflexivity.
      rewrite !sumOf_snoc, length_app.
      cbn [length acc_totalScore acc_count acc_political acc_civil].
      f_equal. lia.
    + rewrite get_set_ne, IH by assumption.
      assert (Hsame : totals y (data ++ [d]) = totals y data).
      { unfold totals. now rewrite rowsOf_snoc, decide_False. }
      rewrite Hsame.
      destruct (decide (y ∈ Dashboard.year <$> data)) as [Hy|Hy].
      * rewrite decide_True; [reflexivity|]. apply Hin. now left.
      * rewrite decide_False; [reflexivity|].
        rewrite Hin. intros [?|?]; [contradiction | congruence].
Qed.

Lemma years_elem_of (data : list FreedomData) (y : Z) :
  y ∈ years data ↔ y ∈ Dashboard.year <$> data.
Proof.
  unfold years, Obj.keys. rewrite sort_elem_of, entries_Permutation.
  pose proof (get_None y (yearlyData data)) as Hnone.
  rewrite yearlyData_get in Hnone.
  destruct (decide (y ∈ Dashboard.year <$> data)) as [Hy|Hy].
  - split; [intros _; assumption|]. intros _.
    destruct (decide (y ∈ (yearlyData data).*1)) as [Hk|Hk]; [assumption|].
    apply Hnone in Hk. discriminate.
  - split; [|intros; contradiction]. intros Hk. exfalso.
    assert (y ∉ (yearlyData data).*1) by now apply Hnone. contradiction.
Qed.

(** Where the order of the decimal strings of the years is the order of the
    years, the trend compares the latest year with the earliest. *)
Lemma trend_between (data : list FreedomData) (earliest latest : Z) :
  (∀ a b, a ∈ Dashboard.year <$> data → b ∈ Dashboard.year <$> data →
          (0 <? Arr.defaultCompare a b)%Z = (0 <? a - b)%Z) →
  earliest ∈ Dashboard.year <$> data →
  latest ∈ Dashboard.year <$> data →
  (∀ y, y ∈ Dashboard.year <$> data → (earliest ≤ y ≤ latest)%Z) →
  (earliest < latest)%Z →
  trendOf data = classify (averageScore earliest data) (averageScore latest data).
Proof.
  intros Horder Hfirst Hlast Hrange Hlt.
  assert (Hsorted : StronglySorted Z.le (years data)).
  { unfold years. rewrite (sort_ext _ (λ a b, id a - id b)%Z).
    - apply (sort_sorted id).
    - intros a b Ha Hb. apply Horder.
      + apply years_elem_of. unfold years. now apply sort_elem_of.
      + apply years_elem_of. unfold years. now apply sort_elem_of. }
  assert (Hhead : head (years data) = Some earliest).
  { apply sorted_head; [assumption | now apply years_elem_of |].
    intros y Hy. apply years_elem_of in Hy. now apply Hrange. }
  assert (Htail : last (years data) = Some latest).
  { apply sorted_last; [assumption | now apply years_elem_of |].
    intros y Hy. apply years_elem_of in Hy. now apply Hrange. }
  assert (Hlen : 1 < length (years data)).
  { destruct (years data) as [|a [|b l]]; cbn in *; [discriminate | | lia].
    injection Hhead as ->. injection Htail as ->. lia. }
  unfold trendOf. rewrite bool_decide_eq_true_2 by exact Hlen.
  rewrite Hhead, Htail. cbn [mbind option_bind].
  rewrite !yearlyData_get, !decide_True by assumption.
  reflexivity.
Qed.

Example trend_between_2019_2021 :
  let data := [ Sample.record 2019 "Libre" 1 2; Sample.record 2021 "Libre" 2 3 ] in
  trendOf data = classify (averageScore 2019 data) (averageScore 2021 data)
  ∧ classify (averageScore 2019 data) (averageScore 2021 data) = improving.
Proof.
  intros data. split; [|vm_compute; reflexivity].
  assert (Hyears : ∀ y, y ∈ Dashboard.year <$> data → y = 2019%Z ∨ y = 2021%Z).
  { intros y Hy. cbn in Hy.
    apply elem_of_cons in Hy as [->|Hy]; [now left|].
    apply elem_of_cons in Hy as [->|Hy]; [now right|].
    now apply elem_of_nil in Hy. }
  apply trend_between.
  - intros a b Ha Hb.
    destruct (Hyears a Ha) as [->| ->], (Hyears b Hb) as [->| ->]; reflexivity.
  - cbn. apply elem_of_cons. now left.
  - cbn. apply elem_of_cons. right. apply elem_of_cons. now left.
  - intros y Hy. destruct (Hyears y Hy) as [->| ->]; lia.
  - lia.
Qed.

(** ** Reading numbers back *)

Lemma parseDigits_acc (d : Decimal.uint) (acc : positive) :
  parseDigits 10 (NilEmpty.string_of_uint d) (Some (Z.pos acc))
  = Some (Z.pos (Pos.of_uint_acc d acc)).
Proof.
  revert acc.
  induction d; intros acc; cbn [NilEmpty.string_of_uint Pos.of_uint_acc parseDigits];
    [reflexivity | ..];
    eval_digit; rewrite <- IHd; do 2 f_equal; unfold default; cbn [from_option id]; lia.
Qed.

Lemma parseDigits_uint (d : Decimal.uint) (acc : option Z) :
  d ≠ Decimal.Nil → default 0%Z acc = 0%Z →
  parseDigits 10 (NilEmpty.string_of_uint d) acc = Some (Z.of_N (Pos.of_uint d)).
Proof.
  revert acc.
  induction d; intros acc Hd Hacc; [congruence | ..];
    cbn [NilEmpty.string_of_uint Pos.of_uint parseDigits];
    eval_digit; rewrite Hacc;
    try (change (0 * 10 + ?k)%Z with k; rewrite parseDigits_acc; reflexivity).
  destruct d; [reflexivity | apply IHd; [discriminate | reflexivity] ..].
Qed.

Lemma trimStart_digits (d : Decimal.uint) :
  trimStart (NilEmpty.string_of_uint d) = NilEmpty.string_of_uint d.
Proof.
  destruct d; [reflexivity | ..]; cbn [NilEmpty.string_of_uint];
    (destruct (NilEmpty.string_of_uint d) as [|b [|c s]]; reflexivity).
Qed.

Lemma parseIntString_uint (d : Decimal.uint) :
  d ≠ Decimal.Nil →
  parseIntString (NilEmpty.string_of_uint d) = Some (Z.of_N (Pos.of_uint d)).
Proof.
  intros Hd. unfold parseIntString. rewrite trimStart_digits.
  pose proof (parseDigits_uint d None Hd eq_refl) as H.
  destruct d as [|d|d|d|d|d|d|d|d|d|d]; [congruence | | ..];
    [destruct d | ..];
    cbn [NilEmpty.string_of_uint] in *; cbv beta iota zeta;
    rewrite H; cbn [fmap option_fmap option_map]; f_equal; apply Z.mul_1_l.
Qed.

Lemma trimStart_minus (s : string) : trimStart (String "-" s) = String "-" s.
Proof. destruct s as [|b [|c s]]; reflexivity. Qed.

Lemma string_of_uint_nonnil (d : Decimal.uint) :
  d ≠ Decimal.Nil → NilZero.string_of_uint d = NilEmpty.string_of_uint d.
Proof. destruct d; [congruence | reflexivity ..]. Qed.

(** [parseInt(String(n))] is [n], for every integer. *)
Lemma parseInt_number (n : Z) : parseInt (VNumber n) = Some n.
Proof.
  unfold parseInt, toString, string_of_Z.
  destruct n as [|p|p]; [reflexivity | |]; cbn [Z.to_int NilZero.string_of_int];
    pose proof (Unsigned.to_uint_nonnil p) as Hnil;
    rewrite string_of_uint_nonnil by assumption.
  - rewrite parseIntString_uint by assumption.
    now rewrite DecimalPos.Unsigned.of_to.
  - pose proof (parseDigits_uint (Pos.to_uint p) None Hnil eq_refl) as H.
    rewrite DecimalPos.Unsigned.of_to in H.
    unfold parseIntString. rewrite trimStart_minus.
    destruct (Pos.to_uint p) as [|d|d|d|d|d|d|d|d|d|d]; [congruence | | ..];
      [destruct d | ..];
      cbn [NilEmpty.string_of_uint] in *; cbv beta iota zeta;
      rewrite H; reflexivity.
Qed.

(** ** More on the rows that are read *)

Lemma string_of_Z_nonempty (n : Z) : string_of_Z n ≠ "".
Proof.
  unfold string_of_Z. destruct n as [|p|p]; [discriminate | |];
    cbn [Z.to_int NilZero.string_of_int];
    pose proof (Unsigned.to_uint_nonnil p) as Hnil;
    rewrite string_of_uint_nonnil by assumption;
    destruct (Pos.to_uint p); first [congruence | discriminate].
Qed.

Lemma integerCell_truthy (v : value) (n : Z) : integerCell v n → truthy v = true.
Proof.
  intros [_ [[-> Hn]| ->]]; cbn.
  - now destruct (Z.eqb_spec n 0).
  - destruct (String.eqb_spec (string_of_Z n) "") as [E|E]; [|reflexivity].
    now apply string_of_Z_nonempty in E.
Qed.

Lemma integerCell_parse (v : value) (n : Z) : integerCell v n → parseInt v = Some n.
Proof. intros [_ [[-> _]| ->]]; apply (parseInt_number n). Qed.

(** X3: A year and two ratings entered under the French headers as integers
    of magnitude at most 2^52, typed as numbers or as text, are read as they
    are, and the total score is the sum of the two ratings. *)
Theorem integer_cells_kept (currentYear : Z) (i : nat) (row : RawRow)
        (vy vp vc : value) (y p c : Z) :
  row !! "Année" = Some vy → integerCell vy y →
  row !! "Droits politiques" = Some vp → integerCell vp p →
  row !! "Libertés civiles" = Some vc → integerCell vc c →
  row !! "year" = None →
  row !! "politicalRights" = None →
  row !! "civilLiberties" = None →
  row !! "totalScore" = None →
  transformRow currentYear i row !! "year" = Some (VNumber y)
  ∧ transformRow currentYear i row !! "politicalRights" = Some (VNumber p)
  ∧ transformRow currentYear i row !! "civilLiberties" = Some (VNumber c)
  ∧ transformRow currentYear i row !! "totalScore" = Some (VNumber (p + c)).
Proof.
  intros Hy Hy0 Hp Hp0 Hc Hc0 Hny Hnp Hnc Hnt.
  unfold transformRow.
  rewrite !spread_absent by assumption.
  unfold get. rewrite Hy, Hp, Hc. cbn [default from_option id].
  rewrite !(or_else_truthy vy), !(or_else_truthy vp), !(or_else_truthy vc)
    by eauto using integerCell_truthy.
  rewrite (integerCell_parse vy y), (integerCell_parse vp p),
    (integerCell_parse vc c) by assumption.
  repeat split.
Qed.

Lemma integer_cells_kept_witness :
  let row : RawRow :=
    list_to_map [ ("Pays", VString "Utopia"); ("Année", VNumber 2020);
                  ("Droits politiques", VString "7");
                  ("Libertés civiles", VNumber 6) ] in
  transformRow 2025 0 row !! "year" = Some (VNumber 2020)
  ∧ transformRow 2025 0 row !! "politicalRights" = Some (VNumber 7)
  ∧ transformRow 2025 0 row !! "civilLiberties" = Some (VNumber 6)
  ∧ transformRow 2025 0 row !! "totalScore" = Some (VNumber (7 + 6)).
Proof.
  intros row.
  apply (integer_cells_kept 2025 0 row (VNumber 2020) (VString "7") (VNumber 6)
                            2020 7 6);
    first [reflexivity
          | split; [vm_compute; discriminate|];
            first [left; split; [reflexivity | discriminate] | right; reflexivity]].
Defined.

(** X4: A row without year and rating cells gets the current year, two ratings
    of 0 and a total score of 0. *)
Theorem missing_cells_fallbacks (currentYear : Z) (i : nat) (row : RawRow) :
  truthy (get row "Année") = false → truthy (get row "Year") = false →
  truthy (get row "Droits politiques") = false →
  truthy (get row "Political Rights") = false →
  truthy (get row "Libertés civiles") = false →
  truthy (get row "Civil Liberties") = false →
  row !! "year" = None →
  row !! "politicalRights" = None →
  row !! "civilLiberties" = None →
  row !! "totalScore" = None →
  transformRow currentYear i row !! "year" = Some (VNumber currentYear)
  ∧ transformRow currentYear i row !! "politicalRights" = Some (VNumber 0)
  ∧ transformRow currentYear i row !! "civilLiberties" = Some (VNumber 0)
  ∧ transformRow currentYear i row !! "totalScore" = Some (VNumber 0).
Proof.
  intros H1 H2 H3 H4 H5 H6 Hny Hnp Hnc Hnt.
  unfold transformRow. rewrite !spread_absent by assumption.
  rewrite (get_absent row "year"), (get_absent row "politicalRights"),
    (get_absent row "civilLiberties") by assumption.
  rewrite !or_else_undefined.
  rewrite (or_else_falsy (get row "Année")), (or_else_falsy (get row "Year")),
    (or_else_falsy (get row "Droits politiques")),
    (or_else_falsy (get row "Political Rights")),
    (or_else_falsy (get row "Libertés civiles")),
    (or_else_falsy (get row "Civil Liberties")) by assumption.
  rewrite !parseInt_number. repeat split.
Qed.

Lemma missing_cells_fallbacks_witness :
  let row : RawRow := {[ "Pays" := VString "Utopia" ]} in
  transformRow 2025 3 row !! "year" = Some (VNumber 2025)
  ∧ transformRow 2025 3 row !! "politicalRights" = Some (VNumber 0)
  ∧ transformRow 2025 3 row !! "civilLiberties" = Some (VNumber 0)
  ∧ transformRow 2025 3 row !! "totalScore" = Some (VNumber 0).
Proof.
  intros row. apply (missing_cells_fallbacks 2025 3 row); reflexivity.
Defined.

(** X2: Every column of the row is on the record with its cell, and the record
    has no other properties than the columns and the seven fields. *)
Theorem columns_kept (currentYear : Z) (i : nat) (row : RawRow) :
  (∀ k v, row !! k = Some v → transformRow currentYear i row !! k = Some v)
  ∧ dom (transformRow currentYear i row)
    = dom row ∪ list_to_set [ "country"; "region"; "year"; "status";
                              "politicalRights"; "civilLiberties"; "totalScore" ].
Proof.
  split.
  - intros k v Hk. now apply spread_own.
  - unfold transformRow, spread. rewrite dom_union_L, dom_list_to_map_L.
    reflexivity.
Qed.

Lemma chosen_cell (a b d : value) :
  a ||| b ||| VUndefined ||| d = a ∨ a ||| b ||| VUndefined ||| d = b
  ∨ a ||| b ||| VUndefined ||| d = d.
Proof.
  rewrite or_else_undefined. unfold or_else.
  destruct (truthy a) eqn:Ea; [rewrite Ea; now left|].
  destruct (truthy b); [right; now left | right; now right].
Qed.

(** A rating that is read from cells that are read safely is an integer
    that doubles hold, with room for the sum of two. *)
Lemma rating_read (a b : value) :
  readsSafely a → readsSafely b →
  safeInteger (default 0%Z (parseInt (a ||| b ||| VUndefined ||| VNumber 0))).
Proof.
  intros Ha Hb.
  assert (H0 : readsSafely (VNumber 0)) by (vm_compute; discriminate).
  assert (H : readsSafely (a ||| b ||| VUndefined ||| VNumber 0)).
  { destruct (chosen_cell a b (VNumber 0)) as [->|[->| ->]]; assumption. }
  unfold readsSafely in H.
  destruct (parseInt (a ||| b ||| VUndefined ||| VNumber 0)); [exact H|].
  vm_compute. discriminate.
Qed.

(** X1: On a sheet without columns named politicalRights, civilLiberties and
    totalScore, whose rating cells are read as integers of magnitude at most
    2^52, every record carries two such ratings and, as its total score,
    their sum; there is one record for each row. *)
Theorem totalScore_is_sum (currentYear : Z) (jsonData : list RawRow) :
  Forall (λ row : RawRow, row !! "politicalRights" = None
                          ∧ row !! "civilLiberties" = None
                          ∧ row !! "totalScore" = None
                          ∧ safeRatings row) jsonData →
  length (transformedData currentYear jsonData) = length jsonData
  ∧ Forall (λ r : gmap string value,
              ∃ p c : Z,
                safeInteger p ∧ safeInteger c
                ∧ r !! "politicalRights" = Some (VNumber p)
                ∧ r !! "civilLiberties" = Some (VNumber c)
                ∧ r !! "totalScore" = Some (VNumber (p + c)))
           (transformedData currentYear jsonData).
Proof.
  intros Hrows. split; [apply transformedData_length|].
  apply Forall_lookup. intros i r Hr.
  rewrite transformedData_lookup in Hr.
  destruct (jsonData !! i) as [row|] eqn:Hi; [|discriminate].
  injection Hr as <-.
  destruct (proj1 (Forall_lookup _ _) Hrows i row Hi)
    as (Hp & Hc & Ht & Hp1 & Hp2 & Hc1 & Hc2).
  unfold transformRow.
  rewrite (get_absent row "politicalRights"), (get_absent row "civilLiberties")
    by assumption.
  eexists _, _. split; [exact (rating_read _ _ Hp1 Hp2)|].
  split; [exact (rating_read _ _ Hc1 Hc2)|].
  repeat split; rewrite spread_absent by assumption; reflexivity.
Qed.

Lemma totalScore_is_sum_witness :
  let rows : list RawRow :=
    [ list_to_map [ ("Pays", VString "Utopia"); ("Droits politiques", VString "7");
                    ("Libertés civiles", VNumber 6) ];
      {[ "Pays" := VString "Erewhon" ]} ] in
  length (transformedData 2025 rows) = length rows
  ∧ Forall (λ r : gmap string value,
              ∃ p c : Z,
                safeInteger p ∧ safeInteger c
                ∧ r !! "politicalRights" = Some (VNumber p)
                ∧ r !! "civilLiberties" = Some (VNumber c)
                ∧ r !! "totalScore" = Some (VNumber (p + c)))
           (transformedData 2025 rows).
Proof.
  intros rows. apply (totalScore_is_sum 2025 rows).
  repeat constructor; vm_compute; discriminate.
Defined.

(** ** The filters of the page *)

Import DashboardView.

Lemma distinct_snoc {A : Type} `{EqDecision A} (l : list A) (x : A) :
  distinct (l ++ [x])
  = if decide (x ∈ distinct l) then distinct l else distinct l ++ [x].
Proof. unfold distinct. now rewrite foldl_snoc. Qed.

Lemma distinct_elem_of {A : Type} `{EqDecision A} (l : list A) (x : A) :
  x ∈ distinct l ↔ x ∈ l.
Proof.
  induction l as [|y l IH] using rev_ind.
  - reflexivity.
  - rewrite distinct_snoc, elem_of_app, list_elem_of_singleton.
    destruct (decide (y ∈ distinct l)) as [Hy|Hy].
    + rewrite IH. split; [tauto|]. intros [?| ->]; [assumption | now apply IH].
    + rewrite elem_of_app, list_elem_of_singleton, IH. reflexivity.
Qed.

Lemma distinct_NoDup {A : Type} `{EqDecision A} (l : list A) : NoDup (distinct l).
Proof.
  induction l as [|y l IH] using rev_ind.
  - constructor.
  - rewrite distinct_snoc. destruct (decide (y ∈ distinct l)) as [Hy|Hy]; [exact IH|].
    apply NoDup_app. split; [exact IH|]. split; [|apply NoDup_singleton].
    intros x Hx ->%list_elem_of_singleton. contradiction.
Qed.

Lemma filter_all {A : Type} (P : A → Prop) `{∀ x, Decision (P x)} (l : list A) :
  (∀ x, P x) → filter P l = l.
Proof.
  intros HP. induction l as [|x l IH]; [reflexivity|].
  rewrite filter_cons, decide_True by apply HP. now rewrite IH.
Qed.

(** The three filters of [applyFilters] amount to one: the table shows the
    records of [data] that pass every active control, in the order of
    [data]; nothing else of the state changes. *)
Lemma applyFilters_matches (toLowerCase : string → string) (st : State)
        (search region status : string) :
  let st' := applyFilters toLowerCase st search region status in
  filteredData st' = filter (matches toLowerCase search region status) (data st)
  ∧ data st' = data st
  ∧ searchTerm st' = searchTerm st
  ∧ regionFilter st' = regionFilter st
  ∧ statusFilter st' = statusFilter st
  ∧ activeView st' = activeView st.
Proof.
  cbn zeta. split; [|repeat split].
  unfold applyFilters. cbn [filteredData setFilteredData].
  unfold matches.
  destruct (String.eqb_spec search "") as [Es|Es]; cbn [negb];
    destruct (decide (region = "all")) as [Er|Er];
    [rewrite (bool_decide_eq_false_2 (region ≠ "all")) by tauto
    |rewrite (bool_decide_eq_true_2 (region ≠ "all")) by assumption
    |rewrite (bool_decide_eq_false_2 (region ≠ "all")) by tauto
    |rewrite (bool_decide_eq_true_2 (region ≠ "all")) by assumption];
    destruct (decide (status = "all")) as [Et|Et];
    [rewrite (bool_decide_eq_false_2 (status ≠ "all")) by tauto
    |rewrite (bool_decide_eq_true_2 (status ≠ "all")) by assumption
    |rewrite (bool_decide_eq_false_2 (status ≠ "all")) by tauto
    |rewrite (bool_decide_eq_true_2 (status ≠ "all")) by assumption
    |rewrite (bool_decide_eq_false_2 (status ≠ "all")) by tauto
    |rewrite (bool_decide_eq_true_2 (status ≠ "all")) by assumption
    |rewrite (bool_decide_eq_false_2 (status ≠ "all")) by tauto
    |rewrite (bool_decide_eq_true_2 (status ≠ "all")) by assumption];
    rewrite ?list_filter_filter;
    try (symmetry; apply filter_all; tauto);
    apply list_filter_iff; intros item; tauto.
Qed.

(** X5: In every state that the page can reach, the three controls are at their
    initial values as long as no data is loaded, and the table shows exactly
    the records that pass the current values of the controls. *)
Theorem filteredData_follows_controls (toLowerCase : string → string) (st : State) :
  reachable toLowerCase st →
  (length (data st) = 0 →
   searchTerm st = "" ∧ regionFilter st = "all" ∧ statusFilter st = "all")
  ∧ filteredData st
    = filter (matches toLowerCase (searchTerm st) (regionFilter st) (statusFilter st))
             (data st).
Proof.
  induction 1 as [|st e Hreach [IHinit IHshown] Hoffered].
  - split; [auto | reflexivity].
  - destruct e as [newData|term|region|status|view]; cbn [handle offered] in *.
    + destruct (IHinit Hoffered) as (Hs & Hr & Ht).
      unfold handleDataLoad. cbn. rewrite Hs, Hr, Ht. split; [auto|].
      symmetry. apply filter_all. intros item. unfold matches. tauto.
    + unfold handleSearch.
      destruct (applyFilters_matches toLowerCase (setSearchTerm term st) term
                  (regionFilter st) (statusFilter st)) as (Hf & Hd & Hs & Hr & Ht & _).
      rewrite Hf, Hd, Hs, Hr, Ht. cbn. split; [lia | reflexivity].
    + unfold handleRegionFilter.
      destruct (applyFilters_matches toLowerCase (setRegionFilter region st)
                  (searchTerm st) region (statusFilter st))
        as (Hf & Hd & Hs & Hr & Ht & _).
      rewrite Hf, Hd, Hs, Hr, Ht. cbn. split; [lia | reflexivity].
    + unfold handleStatusFilter.
      destruct (applyFilters_matches toLowerCase (setStatusFilter status st)
                  (searchTerm st) (regionFilter st) status)
        as (Hf & Hd & Hs & Hr & Ht & _).
      rewrite Hf, Hd, Hs, Hr, Ht. cbn. split; [lia | reflexivity].
    + cbn. split; [lia | exact IHshown].
Qed.

Lemma filteredData_follows_controls_witness :
  let loaded := handle id (DataLoad Sample.sixStatuses) initialState in
  let st := handle id (SelectStatus "Libre") loaded in
  (length (data st) = 0 →
   searchTerm st = "" ∧ regionFilter st = "all" ∧ statusFilter st = "all")
  ∧ filteredData st
    = filter (matches id (searchTerm st) (regionFilter st) (statusFilter st))
             (data st).
Proof.
  intros loaded st. apply filteredData_follows_controls.
  apply reachable_step; [apply reachable_step; [apply reachable_initial|]|].
  - reflexivity.
  - split; [cbn; lia|]. unfold statusOptions.
    apply elem_of_cons. right. apply elem_of_cons. now left.
Defined.

(** X6: The region select offers each region of the data once, and nothing
    else; choosing an offered region while the search box is empty and all
    statuses are shown never empties the table. *)
Theorem offered_region_has_rows (toLowerCase : string → string) (st : State)
        (region : string) :
  searchTerm st = "" → statusFilter st = "all" →
  region ∈ uniqueRegions st →
  NoDup (uniqueRegions st)
  ∧ (∀ r, r ∈ uniqueRegions st ↔ r ∈ Dashboard.region <$> data st)
  ∧ filteredData (handleRegionFilter toLowerCase region st) ≠ [].
Proof.
  intros Hs Ht Hin. split; [apply distinct_NoDup|].
  split; [intros r; apply distinct_elem_of|].
  unfold handleRegionFilter.
  destruct (applyFilters_matches toLowerCase (setRegionFilter region st)
              (searchTerm st) region (statusFilter st)) as (Hf & _).
  rewrite Hf. cbn [data setRegionFilter].
  unfold uniqueRegions in Hin. rewrite distinct_elem_of in Hin.
  apply list_elem_of_fmap in Hin as (item & -> & Hitem).
  intros Hnil.
  assert (Hitem' : item ∈ filter (matches toLowerCase (searchTerm st)
                                    (Dashboard.region item) (statusFilter st)) (data st)).
  { apply list_elem_of_filter. split; [|assumption].
    unfold matches. rewrite Hs, Ht. tauto. }
  rewrite Hnil in Hitem'. now apply elem_of_nil in Hitem'.
Qed.

Lemma offered_region_has_rows_witness :
  let st := handleDataLoad Sample.sixths initialState in
  NoDup (uniqueRegions st)
  ∧ (∀ r, r ∈ uniqueRegions st ↔ r ∈ Dashboard.region <$> data st)
  ∧ filteredData (handleRegionFilter id "Europe" st) ≠ [].
Proof.
  intros st. apply offered_region_has_rows; [reflexivity | reflexivity |].
  apply (bool_decide_unpack _). vm_compute. exact I.
Defined.

(** ** The pages of the table *)

Import DataTableView.

Lemma slice_nonneg {A : Type} (a b : Z) (l : list A) :
  (0 ≤ a ≤ b)%Z →
  slice a b l = take (Z.to_nat (b - a)) (drop (Z.to_nat a) l).
Proof.
  intros Hab. unfold slice.
  destruct (Z.ltb_spec a 0) as [?|_]; [lia|].
  destruct (Z.ltb_spec b 0) as [?|_]; [lia|].
  destruct (Z_le_gt_dec a (Z.of_nat (length l))) as [Ha|Ha].
  - rewrite (Z.min_l a) by lia.
    destruct (Z_le_gt_dec b (Z.of_nat (length l))) as [Hb|Hb].
    + now rewrite (Z.min_l b) by lia.
    + rewrite (Z.min_r b) by lia.
      rewrite !take_ge; [reflexivity | rewrite length_drop; lia ..].
  - rewrite (Z.min_r a), (Z.min_r b) by lia.
    rewrite !drop_ge by lia. now rewrite !take_nil.
Qed.

Lemma Qceiling_quotient (n d : Z) :
  (0 < d)%Z → Qceiling (inject_Z n / inject_Z d) = ((n + d - 1) / d)%Z.
Proof.
  intros Hd. unfold Qceiling.
  assert (E : Qfloor (- (inject_Z n / inject_Z d)) = ((- n) / d)%Z).
  { rewrite (Zdiv_Qdiv (- n) d). apply Qfloor_comp.
    destruct d as [|p|p]; try lia.
    unfold Qeq, Qdiv, Qmult, Qopp, Qinv, inject_Z. simpl. lia. }
  rewrite E.
  pose proof (Z.div_mod (- n) d ltac:(lia)) as Hdiv.
  pose proof (Z.mod_pos_bound (- n) d Hd) as Hmod.
  apply (Z.div_unique_pos _ _ _ (d - 1 - (- n) mod d)); lia.
Qed.

(** The number of pages, with [d] rows per page. *)
Lemma totalPages_quotient (l : list FreedomData) (st : State) :
  (0 < itemsPerPage st)%Z →
  totalPages l st
  = ((Z.of_nat (length l) + itemsPerPage st - 1) / itemsPerPage st)%Z.
Proof. intros Hd. unfold totalPages. now apply Qceiling_quotient. Qed.

Lemma paginatedData_rows (l : list FreedomData) (st : State) :
  (0 < itemsPerPage st)%Z → (1 ≤ currentPage st)%Z →
  paginatedData l st
  = pageRows (Z.to_nat (itemsPerPage st)) (Z.to_nat (currentPage st - 1)) l.
Proof.
  intros Hd Hp. unfold paginatedData, pageRows.
  rewrite slice_nonneg by nia. f_equal; [lia|].
  f_equal. nia.
Qed.

Lemma pageRows_concat {A : Type} (d m : nat) (l : list A) :
  (length l ≤ m * d)%nat →
  concat ((λ p, pageRows d p l) <$> seq 0 m) = l.
Proof.
  revert l. induction m as [|m IH]; intros l Hlen.
  - destruct l; [reflexivity | cbn in Hlen; lia].
  - cbn [seq fmap list_fmap concat]. rewrite <- fmap_S_seq, <- list_fmap_compose.
    transitivity (take d l ++ drop d l); [|apply take_drop].
    f_equal.
    rewrite <- (IH (drop d l)) by (rewrite length_drop; lia).
    f_equal. apply list_fmap_ext. intros i p _. unfold pageRows. cbn [compose].
    rewrite drop_drop. f_equal; lia.
Qed.

Lemma pageRows_length {A : Type} (d p : nat) (l : list A) :
  length (pageRows d p l) = Nat.min d (length l - p * d).
Proof. unfold pageRows. now rewrite length_take, length_drop. Qed.

Lemma pages_hold_all (n d : Z) :
  (0 ≤ n)%Z → (0 < d)%Z → (n ≤ (n + d - 1) / d * d)%Z.
Proof.
  intros Hn Hd.
  pose proof (Z.div_mod (n + d - 1) d ltac:(lia)).
  pose proof (Z.mod_pos_bound (n + d - 1) d Hd). nia.
Qed.

(** X10: The pages 1 to [totalPages], one after the other, are the sorted rows:
    no row is left out and none is shown twice. *)
Theorem pages_cover_rows (sortedData : list FreedomData) (st : State) :
  (0 < itemsPerPage st)%Z →
  concat ((λ p, paginatedData sortedData (setCurrentPage p st))
          <$> seqZ 1 (totalPages sortedData st))
  = sortedData.
Proof.
  intros Hd. unfold seqZ. rewrite <- list_fmap_compose.
  rewrite <- (pageRows_concat (Z.to_nat (itemsPerPage st))
                (Z.to_nat (totalPages sortedData st)) sortedData) at 2.
  - f_equal. apply list_fmap_ext. intros i p _. cbn [compose].
    rewrite paginatedData_rows by (cbn; lia). cbn. f_equal. lia.
  - rewrite totalPages_quotient by assumption.
    pose proof (pages_hold_all (Z.of_nat (length sortedData)) (itemsPerPage st)
                  ltac:(lia) Hd) as Hall.
    assert (0 ≤ (Z.of_nat (length sortedData) + itemsPerPage st - 1)
                / itemsPerPage st)%Z by (apply Z.div_pos; lia).
    nia.
Qed.

Lemma pages_cover_rows_witness :
  concat ((λ p, paginatedData Sample.almostAll (setCurrentPage p initialState))
          <$> seqZ 1 (totalPages Sample.almostAll initialState))
  = Sample.almostAll.
Proof. apply pages_cover_rows. reflexivity. Defined.

(** X11: On a page between 1 and [totalPages] the table has as many rows as the
    line below it announces, at least one and at most [itemsPerPage]; every
    page before the last one is full. *)
Theorem page_row_count (sortedData : list FreedomData) (st : State) :
  (0 < itemsPerPage st)%Z →
  (1 ≤ currentPage st ≤ totalPages sortedData st)%Z →
  let rows := Z.of_nat (length (paginatedData sortedData st)) in
  rows = (rangeTo sortedData st - rangeFrom st + 1)%Z
  ∧ (1 ≤ rows ≤ itemsPerPage st)%Z
  ∧ ((currentPage st < totalPages sortedData st)%Z → rows = itemsPerPage st).
Proof.
  intros Hd Hp. cbn zeta.
  rewrite totalPages_quotient in Hp |- * by assumption.
  rewrite paginatedData_rows by lia. rewrite pageRows_length.
  unfold rangeTo, rangeFrom.
  set (n := Z.of_nat (length sortedData)) in *.
  set (d := itemsPerPage st) in *. set (p := currentPage st) in *.
  pose proof (Z.div_mod (n + d - 1) d ltac:(lia)) as Hdiv.
  pose proof (Z.mod_pos_bound (n + d - 1) d Hd) as Hmod.
  assert (Hstart : ((p - 1) * d < n)%Z) by nia.
  assert (Hnat : Z.of_nat (Z.to_nat (p - 1) * Z.to_nat d) = ((p - 1) * d)%Z) by nia.
  split; [|split].
  - subst n. lia.
  - subst n. lia.
  - intros Hlast. assert (p * d ≤ n)%Z by nia. subst n. lia.
Qed.

Lemma page_row_count_witness :
  let st := setCurrentPage 67 initialState in
  let rows := Z.of_nat (length (paginatedData Sample.almostAll st)) in
  rows = (rangeTo Sample.almostAll st - rangeFrom st + 1)%Z
  ∧ (1 ≤ rows ≤ itemsPerPage st)%Z
  ∧ ((currentPage st < totalPages Sample.almostAll st)%Z → rows = itemsPerPage st).
Proof.
  intros st. apply (page_row_count Sample.almostAll st).
  - reflexivity.
  - vm_compute. split; discriminate.
Defined.

(** X12: On a page after the last one, that is beyond [totalPages], the table
    shows no row. *)
Theorem page_after_last_is_empty (sortedData : list FreedomData) (st : State) :
  (0 < itemsPerPage st)%Z →
  (totalPages sortedData st < currentPage st)%Z →
  paginatedData sortedData st = [].
Proof.
  intros Hd Hp. rewrite totalPages_quotient in Hp by assumption.
  assert (0 ≤ (Z.of_nat (length sortedData) + itemsPerPage st - 1)
              / itemsPerPage st)%Z by (apply Z.div_pos; lia).
  rewrite paginatedData_rows by lia.
  apply nil_length_inv. rewrite pageRows_length.
  pose proof (pages_hold_all (Z.of_nat (length sortedData)) (itemsPerPage st)
                ltac:(lia) Hd).
  assert (Z.of_nat (length sortedData)
          ≤ Z.of_nat (Z.to_nat (currentPage st - 1) * Z.to_nat (itemsPerPage st)))%Z
    by nia.
  lia.
Qed.

Lemma page_after_last_is_empty_witness :
  paginatedData Sample.sixths (setCurrentPage 3 initialState) = [].
Proof.
  apply page_after_last_is_empty; [reflexivity | vm_compute; reflexivity].
Defined.

(** X13: The buttons of the pagination bar never leave the pages 1 to
    [totalPages]; the numbered buttons are those of the first five pages. *)
Theorem navigation_stays_in_range (sortedData : list FreedomData) (st : State) :
  (1 ≤ currentPage st ≤ totalPages sortedData st)%Z →
  (1 ≤ currentPage (previousPage st) ≤ totalPages sortedData st)%Z
  ∧ (1 ≤ currentPage (nextPage sortedData st) ≤ totalPages sortedData st)%Z
  ∧ (∀ page, page ∈ pageButtons sortedData st
             ↔ (1 ≤ page ≤ totalPages sortedData st ∧ page ≤ 5)%Z).
Proof.
  intros Hp. split; [|split].
  - cbn. lia.
  - cbn. lia.
  - intros page. unfold pageButtons. rewrite list_elem_of_fmap. split.
    + intros (i & -> & Hi). apply elem_of_seqZ in Hi. lia.
    + intros Hpage. exists (page - 1)%Z. split; [lia|].
      apply elem_of_seqZ. lia.
Qed.

Lemma navigation_stays_in_range_witness :
  let st := setCurrentPage 67 initialState in
  (1 ≤ currentPage (previousPage st) ≤ totalPages Sample.almostAll st)%Z
  ∧ (1 ≤ currentPage (nextPage Sample.almostAll st)
     ≤ totalPages Sample.almostAll st)%Z
  ∧ (∀ page, page ∈ pageButtons Sample.almostAll st
             ↔ (1 ≤ page ≤ totalPages Sample.almostAll st ∧ page ≤ 5)%Z).
Proof.
  intros st. apply (navigation_stays_in_range Sample.almostAll st).
  vm_compute. split; discriminate.
Defined.

(** X9: After a click on the header of a column the table is sorted by that
    column; further clicks on the same header alternate between descending
    and ascending, and no click changes the page. *)
Theorem handleSort_alternates (column : Column) (st : State) :
  let once := handleSort column st in
  let twice := handleSort column once in
  sortColumn once = Some column
  ∧ (sortColumn st ≠ Some column → sortDirection once = asc)
  ∧ sortColumn twice = Some column
  ∧ sortDirection twice ≠ sortDirection once
  ∧ handleSort column twice = once
  ∧ currentPage once = currentPage st.
Proof.
  cbn zeta. destruct st as [[c|] dir p d].
  - destruct column, c, dir; vm_compute; repeat split; intros; congruence.
  - destruct column, dir; vm_compute; repeat split; intros; congruence.
Qed.

(** ** The order of the sorted rows *)

Lemma place_ordered {A : Type} (cmp : A → A → Z) (x : A) (l : list A) :
  (∀ a b, (0 < cmp a b)%Z → (cmp b a ≤ 0)%Z) →
  (∀ a b c, (cmp a b ≤ 0)%Z → (cmp b c ≤ 0)%Z → (cmp a c ≤ 0)%Z) →
  StronglySorted (λ a b, (cmp a b ≤ 0)%Z) l →
  StronglySorted (λ a b, (cmp a b ≤ 0)%Z) (Arr.place cmp x l).
Proof.
  intros Hanti Htrans. induction 1 as [|y l Hs IH Hy]; cbn [Arr.place].
  - repeat constructor.
  - destruct (Z.ltb_spec 0 (cmp x y)) as [E|E].
    + constructor; [exact IH|]. apply Forall_forall. intros z Hz.
      rewrite place_Permutation in Hz.
      apply elem_of_cons in Hz as [->|Hz]; [now apply Hanti|].
      rewrite Forall_forall in Hy. now apply Hy.
    + constructor; [now constructor|]. constructor; [exact E|].
      eapply Forall_impl; [exact Hy|]. cbn beta. intros z Hz.
      now apply (Htrans x y z).
Qed.

Lemma sort_ordered {A : Type} (cmp : A → A → Z) (l : list A) :
  (∀ a b, (0 < cmp a b)%Z → (cmp b a ≤ 0)%Z) →
  (∀ a b c, (cmp a b ≤ 0)%Z → (cmp b c ≤ 0)%Z → (cmp a c ≤ 0)%Z) →
  StronglySorted (λ a b, (cmp a b ≤ 0)%Z) (Arr.sort cmp l).
Proof.
  intros Hanti Htrans. induction l as [|x l IH]; [constructor|].
  change (Arr.sort cmp (x :: l)) with (Arr.place cmp x (Arr.sort cmp l)).
  now apply place_ordered.
Qed.

Lemma compare_as_OT (s t : string) : String.compare s t = String_as_OT.compare s t.
Proof. revert t. induction s; destruct t; cbn; auto. Qed.

Lemma ltb_trans (s t u : string) :
  String.ltb s t = true → String.ltb t u = true → String.ltb s u = true.
Proof.
  unfold String.ltb.
  rewrite (compare_as_OT s t), (compare_as_OT t u), (compare_as_OT s u).
  intros H1 H2.
  destruct (String_as_OT.compare s t) eqn:E1; try discriminate H1.
  destruct (String_as_OT.compare t u) eqn:E2; try discriminate H2.
  pose proof (@StrictOrder_Transitive _ _ String_as_OT.lt_strorder s t u E1 E2) as H.
  unfold String_as_OT.lt in H. now rewrite H.
Qed.

Lemma ltb_irrefl (s : string) : String.ltb s s = false.
Proof.
  unfold String.ltb. rewrite compare_as_OT.
  destruct (String_as_OT.compare s s) eqn:E; try reflexivity.
  exfalso. exact (@StrictOrder_Irreflexive _ _ String_as_OT.lt_strorder s E).
Qed.

Lemma ltb_asym (s t : string) : String.ltb s t = true → String.ltb t s = false.
Proof.
  intros Hst. destruct (String.ltb t s) eqn:Hts; [|reflexivity].
  rewrite <- (ltb_irrefl s). symmetry. now apply (ltb_trans s t s).
Qed.

(** The order by code units is a strict order, total on the sequences of
    code units. *)
Lemma unitsBefore_irrefl (l : list N) : unitsBefore l l = false.
Proof.
  induction l as [|x l IH]; [reflexivity|]. cbn.
  rewrite N.ltb_irrefl, N.eqb_refl. exact IH.
Qed.

Lemma unitsBefore_trans (l k m : list N) :
  unitsBefore l k = true → unitsBefore k m = true → unitsBefore l m = true.
Proof.
  revert k m. induction l as [|x l IH]; intros [|y k] [|z m]; cbn; try congruence.
  intros Hxy Hyz.
  apply orb_true_iff in Hxy, Hyz. apply orb_true_iff.
  rewrite !andb_true_iff, !N.ltb_lt, !N.eqb_eq in *.
  destruct Hxy as [Hxy|[-> Hlk]], Hyz as [Hyz|[-> Hkm]].
  - left. lia.
  - now left.
  - now left.
  - right. split; [reflexivity|]. now apply (IH k m).
Qed.

Lemma unitsBefore_total (l k : list N) :
  unitsBefore l k = false → unitsBefore k l = false → l = k.
Proof.
  revert k. induction l as [|x l IH]; intros [|y k]; cbn; try congruence.
  intros Hxy Hyx.
  apply orb_false_iff in Hxy as [Hxy Hlk], Hyx as [Hyx Hkl].
  apply N.ltb_ge in Hxy, Hyx. assert (x = y) by lia. subst y.
  rewrite N.eqb_refl in Hlk, Hkl. cbn in Hlk, Hkl.
  f_equal. now apply IH.
Qed.

Lemma lessThan_irrefl (s : string) : lessThan s s = false.
Proof. apply unitsBefore_irrefl. Qed.

Lemma lessThan_asym (s t : string) : lessThan s t = true → lessThan t s = false.
Proof.
  unfold lessThan. intros Hst.
  destruct (unitsBefore (units t) (units s)) eqn:Hts; [|reflexivity].
  rewrite <- (unitsBefore_irrefl (units s)). symmetry.
  now apply (unitsBefore_trans _ (units t)).
Qed.

(** Not being after is transitive. *)
Lemma notAfter_trans (s t u : string) :
  lessThan t s = false → lessThan u t = false → lessThan u s = false.
Proof.
  unfold lessThan. intros Hts Hut.
  destruct (unitsBefore (units u) (units s)) eqn:Hus; [exfalso | reflexivity].
  destruct (unitsBefore (units s) (units t)) eqn:Hst.
  - rewrite (unitsBefore_trans _ _ _ Hus Hst) in Hut. discriminate.
  - rewrite (unitsBefore_total _ _ Hst Hts) in Hus. congruence.
Qed.

Lemma compareStrings_le (s t : string) :
  ((if lessThan s t then -1 else if lessThan t s then 1 else 0) ≤ 0)%Z
  ↔ lessThan t s = false.
Proof.
  destruct (lessThan s t) eqn:Hst.
  - rewrite (lessThan_asym s t Hst). split; [reflexivity | lia].
  - destruct (lessThan t s); split; (lia || discriminate || reflexivity).
Qed.

Lemma compareRows_inOrder (toLowerCase : string → string) (column : Column)
      (direction : Direction) (a b : FreedomData) :
  (compareRows toLowerCase column direction a b ≤ 0)%Z
  ↔ inOrder toLowerCase column direction a b.
Proof.
  unfold compareRows, inOrder.
  destruct column, direction; cbn [cell]; (lia || apply compareStrings_le).
Qed.

Lemma inOrder_total (toLowerCase : string → string) (column : Column)
      (direction : Direction) (a b : FreedomData) :
  inOrder toLowerCase column direction a b ∨ inOrder toLowerCase column direction b a.
Proof.
  unfold inOrder.
  destruct column, direction; cbn [cell]; try lia;
    match goal with
    | |- lessThan ?t ?s = false ∨ _ =>
        destruct (lessThan t s) eqn:E; [right; now apply lessThan_asym | now left]
    end.
Qed.

Lemma inOrder_trans (toLowerCase : string → string) (column : Column)
      (direction : Direction) (a b c : FreedomData) :
  inOrder toLowerCase column direction a b →
  inOrder toLowerCase column direction b c →
  inOrder toLowerCase column direction a c.
Proof.
  unfold inOrder.
  destruct column, direction; cbn [cell]; try lia; eauto using notAfter_trans.
Qed.

Lemma StronglySorted_iff {A : Type} (R S : A → A → Prop) (l : list A) :
  (∀ a b, R a b ↔ S a b) → StronglySorted R l → StronglySorted S l.
Proof.
  intros HRS. induction 1 as [|x l Hs IH Hx]; constructor; [exact IH|].
  eapply Forall_impl; [exact Hx|]. intros y. apply HRS.
Qed.

(** X7: Sorting by a column: the array that [sortedData] returns holds the rows
    of [data] in the order of that column, ascending or descending; numbers
    are ordered by value, texts by the UTF-16 code units of their
    lower-cased form. *)
Theorem sortedData_ordered (toLowerCase : string → string) (σ : Store)
        (data : nat) (rows : list FreedomData)
        (column : Column) (direction : Direction) :
  σ !! data = Some rows →
  let '(result, σ') := sortedData toLowerCase σ data (Some column) direction in
  ∃ sorted, σ' !! result = Some sorted
            ∧ sorted ≡ₚ rows
            ∧ StronglySorted (inOrder toLowerCase column direction) sorted.
Proof.
  intros Hdata. cbn.
  exists (Arr.sort (compareRows toLowerCase column direction) rows).
  split; [|split].
  - rewrite lookup_alter_eq, lookup_insert_eq, Hdata. reflexivity.
  - apply sort_Permutation.
  - apply (StronglySorted_iff _ _ _ (compareRows_inOrder toLowerCase column direction)).
    apply sort_ordered.
    + intros a b Hab. apply compareRows_inOrder.
      destruct (inOrder_total toLowerCase column direction a b) as [H|H];
        [|exact H].
      apply compareRows_inOrder in H. lia.
    + intros a b c Hab Hbc. apply compareRows_inOrder.
      apply compareRows_inOrder in Hab, Hbc. now apply (inOrder_trans _ _ _ a b c).
Qed.

Lemma sortedData_ordered_witness :
  let rows := Sample.millennium in
  let σ : Store := {[ 0%nat := rows ]} in
  let '(result, σ') := sortedData id σ 0%nat (Some Year) desc in
  ∃ sorted, σ' !! result = Some sorted
            ∧ sorted ≡ₚ rows
            ∧ StronglySorted (inOrder id Year desc) sorted.
Proof.
  intros rows σ. apply (sortedData_ordered id σ 0%nat rows Year desc). reflexivity.
Defined.

(** The order of texts is that of their code units: a character outside
    the basic plane, which starts with a surrogate, comes before a character
    from U+E000 on. *)
Example code_unit_order :
  lessThan "😀" "Ａ" = true ∧ lessThan "Ａ" "😀" = false
  ∧ lessThan "Zimbabwe" "zambie" = true ∧ lessThan "Bénin" "Bolivie" = false.
Proof. repeat split; vm_compute; reflexivity. Qed.

(** ** Rows with equal cells *)

Lemma place_filter {A : Type} (cmp : A → A → Z) (P : A → Prop)
      `{∀ x, Decision (P x)} (x : A) (l : list A) :
  (∀ y, P x → P y → (cmp x y ≤ 0)%Z) →
  filter P (Arr.place cmp x l) = filter P (x :: l).
Proof.
  intros Hties. induction l as [|y l IH]; [reflexivity|]. cbn [Arr.place].
  destruct (Z.ltb_spec 0 (cmp x y)) as [E|E]; [|reflexivity].
  rewrite filter_cons, IH, !filter_cons.
  destruct (decide (P x)) as [Hx|Hx], (decide (P y)) as [Hy|Hy]; try reflexivity.
  specialize (Hties y Hx Hy). lia.
Qed.

Lemma sort_filter {A : Type} (cmp : A → A → Z) (P : A → Prop)
      `{∀ x, Decision (P x)} (l : list A) :
  (∀ x y, P x → P y → (cmp x y ≤ 0)%Z) →
  filter P (Arr.sort cmp l) = filter P l.
Proof.
  intros Hties. induction l as [|x l IH]; [reflexivity|].
  change (Arr.sort cmp (x :: l)) with (Arr.place cmp x (Arr.sort cmp l)).
  rewrite place_filter by (intros y; apply Hties).
  now rewrite !filter_cons, IH.
Qed.

(** X8: Rows that have the same cell in the sort column stay in the order they
    have in [data], in both directions. *)
Theorem sortedData_stable (toLowerCase : string → string) (σ : Store)
        (data : nat) (rows : list FreedomData)
        (column : Column) (direction : Direction) (v : value) :
  σ !! data = Some rows →
  let '(result, σ') := sortedData toLowerCase σ data (Some column) direction in
  ∃ sorted, σ' !! result = Some sorted
            ∧ filter (λ r, cell column r = v) sorted
              = filter (λ r, cell column r = v) rows.
Proof.
  intros Hdata. cbn.
  exists (Arr.sort (compareRows toLowerCase column direction) rows).
  split.
  - rewrite lookup_alter_eq, lookup_insert_eq, Hdata. reflexivity.
  - apply sort_filter. intros x y Hx Hy. unfold compareRows.
    rewrite Hx, Hy.
    destruct v, direction; cbn; rewrite ?lessThan_irrefl; lia.
Qed.

Lemma sortedData_stable_witness :
  let rows := Sample.sixStatuses in
  let σ : Store := {[ 0%nat := rows ]} in
  let '(result, σ') := sortedData id σ 0%nat (Some Year) desc in
  ∃ sorted, σ' !! result = Some sorted
            ∧ filter (λ r, cell Year r = VNumber 2020) sorted
              = filter (λ r, cell Year r = VNumber 2020) rows.
Proof.
  intros rows σ.
  apply (sortedData_stable id σ 0%nat rows Year desc (VNumber 2020)). reflexivity.
Defined.

(** ** Region summary *)













(** A region name is cut after 15 code units; of a character of two code
    units that starts at the fifteenth, the first unit is kept. *)
Example shorten_cuts_code_units :
  shorten "Afrique subsaharienne" = "Afrique subsaha..."
  ∧ units (shorten "AAAAAAAAAAAAAA😀 and more")
    = units "AAAAAAAAAAAAAA" ++ [55357%N] ++ units "..."
  ∧ units "😀" = [55357%N; 56832%N].
Proof. repeat split; vm_compute; reflexivity. Qed.

(** ** Trend: years of four digits *)

Lemma fourDigits_successor (n : Z) :
  (1000 ≤ n < 9999)%Z → String.ltb (string_of_Z n) (string_of_Z (n + 1)) = true.
Proof.
  intros Hn.
  assert (Hall : Forall (λ n, String.ltb (string_of_Z n) (string_of_Z (n + 1)) = true)
                        (seqZ 1000 8999)).
  { apply (bool_decide_unpack _). vm_compute. exact I. }
  rewrite Forall_forall in Hall. apply Hall, elem_of_seqZ. lia.
Qed.

Lemma fourDigits_ordered (a b : Z) :
  (1000 ≤ a)%Z → (a < b)%Z → (b ≤ 9999)%Z →
  String.ltb (string_of_Z a) (string_of_Z b) = true.
Proof.
  intros Ha Hab. replace b with (a + 1 + (b - a - 1))%Z by lia.
  assert (Hk : (0 ≤ b - a - 1)%Z) by lia. revert Hk.
  generalize (b - a - 1)%Z as k. clear b Hab. intros k Hk.
  pattern k. apply natlike_ind; [| |exact Hk].
  - intros Hb. rewrite Z.add_0_r. apply fourDigits_successor. lia.
  - intros j Hj IH Hb.
    apply (ltb_trans _ (string_of_Z (a + 1 + j))); [apply IH; lia|].
    replace (a + 1 + Z.succ j)%Z with (a + 1 + j + 1)%Z by lia.
    apply fourDigits_successor. lia.
Qed.

Lemma defaultCompare_fourDigits (a b : Z) :
  (1000 ≤ a ≤ 9999)%Z → (1000 ≤ b ≤ 9999)%Z →
  (0 <? Arr.defaultCompare a b)%Z = (0 <? a - b)%Z.
Proof.
  intros Ha Hb. unfold Arr.defaultCompare. cbn zeta.
  destruct (Z.lt_trichotomy a b) as [Hlt|[->|Hgt]].
  - rewrite (fourDigits_ordered a b) by lia. symmetry. apply Z.ltb_ge. lia.
  - rewrite ltb_irrefl. symmetry. apply Z.ltb_ge. lia.
  - rewrite (ltb_asym _ _ (fourDigits_ordered b a ltac:(lia) ltac:(lia) ltac:(lia))).
    rewrite (fourDigits_ordered b a) by lia. symmetry. apply Z.ltb_lt. lia.
Qed.

(** X15: When all years have four digits, and the sums of the total scores
    are integers that doubles hold, the trend on the stat card compares the
    average total score of the latest year with that of the earliest, as
    doubles: improving when the latest average is greater than the earliest
    plus 0.5, declining when it is less than the earliest minus 0.5, stable
    otherwise. *)
Theorem trend_four_digit_years (data : list FreedomData) (earliest latest : Z) :
  exactSums data →
  Forall (λ d, (1000 ≤ Dashboard.year d ≤ 9999)%Z) data →
  earliest ∈ Dashboard.year <$> data →
  latest ∈ Dashboard.year <$> data →
  (∀ y, y ∈ Dashboard.year <$> data → (earliest ≤ y ≤ latest)%Z) →
  (earliest < latest)%Z →
  trendOf data = classify (averageScore earliest data) (averageScore latest data).
Proof.
  intros _ Hdigits Hfirst Hlast Hrange Hlt.
  apply trend_between; try assumption.
  assert (Hyear : ∀ y, y ∈ Dashboard.year <$> data → (1000 ≤ y ≤ 9999)%Z).
  { intros y Hy. apply list_elem_of_fmap in Hy as (d & -> & Hd).
    rewrite Forall_forall in Hdigits. now apply Hdigits. }
  intros a b Ha Hb. apply defaultCompare_fourDigits; auto.
Qed.

Lemma trend_four_digit_years_witness :
  let data := [ Sample.record 2019 "Libre" 1 2; Sample.record 2021 "Libre" 2 3;
                Sample.record 2020 "Pas libre" 7 7 ] in
  trendOf data = classify (averageScore 2019 data) (averageScore 2021 data).
Proof.
  intros data.
  assert (Hyears : ∀ y, y ∈ Dashboard.year <$> data
                        → y = 2019%Z ∨ y = 2021%Z ∨ y = 2020%Z).
  { intros y Hy. cbn in Hy.
    apply elem_of_cons in Hy as [->|Hy]; [now left|].
    apply elem_of_cons in Hy as [->|Hy]; [right; now left|].
    apply elem_of_cons in Hy as [->|Hy]; [right; now right|].
    now apply elem_of_nil in Hy. }
  apply (trend_four_digit_years data 2019 2021).
  - apply (bool_decide_unpack _). vm_compute. exact I.
  - repeat constructor; cbn; lia.
  - cbn. apply elem_of_cons. now left.
  - cbn. apply elem_of_cons. right. apply elem_of_cons. now left.
  - intros y Hy. destruct (Hyears y Hy) as [->|[->| ->]]; lia.
  - lia.
Defined.

(** ** The years on the card and on the chart *)

Lemma length_as_size (l k : list Z) :
  NoDup l → (∀ y, y ∈ l ↔ y ∈ k) → length l = size (list_to_set k : gset Z).
Proof.
  intros Hnd Hsame. rewrite <- (size_list_to_set (C := gset Z) l) by assumption.
  f_equal. apply set_eq. intros y. rewrite !elem_of_list_to_set. apply Hsame.
Qed.

Lemma years_length (data : list FreedomData) :
  length (years data) = size (list_to_set (Dashboard.year <$> data) : gset Z).
Proof.
  apply length_as_size; [|apply years_elem_of].
  unfold years, Obj.keys. rewrite sort_Permutation, entries_Permutation.
  apply yearlyData_NoDup.
Qed.

Lemma yearlyTrends_length (data : list FreedomData) :
  length (yearlyTrends data)
  = size (list_to_set (Dashboard.year <$> data) : gset Z).
Proof.
  rewrite <- (length_fmap Yearly.year). apply length_as_size.
  - rewrite yearlyTrends_years. apply yearData_NoDup.
  - apply (yearlyTrends_entries data).
Qed.

(** X16: The number of years on the stat card is the number of points of the
    yearly chart, and whenever the card shows a trend other than stable the
    yearly chart, which needs two points, is shown. *)
Theorem years_counted_alike (data : list FreedomData) :
  data ≠ [] →
  ∃ s, stats data = Some s
       ∧ uniqueYears s = length (yearlyTrends data)
       ∧ (trend s ≠ stable → 1 < length (yearlyTrends data)).
Proof.
  intros Hne. unfold stats.
  rewrite bool_decide_eq_false_2 by (destruct data; [congruence | discriminate]).
  eexists. split; [reflexivity|].
  cbn [uniqueYears trend]. rewrite yearlyTrends_length. split; [reflexivity|].
  rewrite <- years_length. unfold trendOf.
  destruct (decide (1 < length (years data))) as [H|H]; [intros _; exact H|].
  rewrite bool_decide_eq_false_2 by assumption. congruence.
Qed.

Lemma years_counted_alike_witness :
  ∃ s, stats Sample.millennium = Some s
       ∧ uniqueYears s = length (yearlyTrends Sample.millennium)
       ∧ (trend s ≠ stable → 1 < length (yearlyTrends Sample.millennium)).
Proof. apply years_counted_alike. discriminate. Defined.
